(** * Guest-portal reconciliation (services_portal_metrics.py)

    A shallow embedding of the reconciliation code of the hospitality
    dashboards: payment-status assignment, the consolidated-payment stage of
    [run], lump-sum de-duplication, event-id resolution, the flattening of the
    catering API response and the per-event fetch loop.

    Conventions of the embedding:
    - a pandas row is a finite map from column names to cells, a DataFrame is
      its list of column names with its list of rows;
    - float64 amounts are exact rationals ([Qc]); the missing value
      (None, NaN, NaT) is the cell [NA];
    - strings are byte strings; [strip], [lower] and the whitespace class act
      on the ASCII range;
    - [st.stop()] and Python exceptions end a computation early: they are the
      [Stop] and [Raise] results of the [result] monad. *)

From Stdlib Require Import QArith Qcanon Qround Qabs String Ascii DecimalString.
From stdpp Require Import gmap strings list fin_maps.


(** ** Text helpers (str.strip, str.lower, substring tests) *)

Module Text.

(** [str.isspace] on the ASCII range: tab, LF, VT, FF, CR, the four
    separators 28..31 and the space. The regular expression class \s agrees
    with it there. *)
Definition is_space (c : ascii) : bool :=
  let n := nat_of_ascii c in
  ((9 <=? n) && (n <=? 13)) || ((28 <=? n) && (n <=? 32)).

Fixpoint lstrip (s : string) : string :=
  match s with
  | String c s' => if is_space c then lstrip s' else s
  | EmptyString => EmptyString
  end.

(** [rstrip] walks from the right: a character is dropped when it is a
    space and everything after it has been dropped. *)
Fixpoint rstrip (s : string) : string :=
  match s with
  | EmptyString => EmptyString
  | String c s' =>
      match rstrip s' with
      | EmptyString => if is_space c then EmptyString else String c EmptyString
      | t => String c t
      end
  end.

Definition strip (s : string) : string := rstrip (lstrip s).

Definition lower_char (c : ascii) : ascii :=
  let n := nat_of_ascii c in
  if (65 <=? n) && (n <=? 90) then ascii_of_nat (n + 32) else c.

Fixpoint lower (s : string) : string :=
  match s with
  | EmptyString => EmptyString
  | String c s' => String (lower_char c) (lower s')
  end.

(** [needle in hay] *)
Fixpoint contains (needle hay : string) : bool :=
  String.prefix needle hay ||
  match hay with
  | EmptyString => false
  | String _ hay' => contains needle hay'
  end.

Fixpoint drop_prefix (p s : string) : option string :=
  match p, s with
  | EmptyString, _ => Some s
  | String a p', String b s' => if Ascii.eqb a b then drop_prefix p' s' else None
  | String _ _, EmptyString => None
  end.

(** [re.sub(r"^exec\s+", "executive ", s)] *)
Definition replace_exec (s : string) : string :=
  match drop_prefix "exec" s with
  | Some (String c rest) =>
      if is_space c then "executive " +:+ lstrip rest else s
  | _ => s
  end.

(** [s.replace(c, "")] for a one-character [c] *)
Fixpoint remove_char (c : ascii) (s : string) : string :=
  match s with
  | EmptyString => EmptyString
  | String a s' => if Ascii.eqb a c then remove_char c s' else String a (remove_char c s')
  end.

(** [s.split(c)] for a one-character separator: never empty. *)
Fixpoint split_on (c : ascii) (s : string) : list string :=
  match s with
  | EmptyString => [EmptyString]
  | String a s' =>
      match split_on c s' with
      | piece :: pieces =>
          if Ascii.eqb a c then EmptyString :: piece :: pieces
          else String a piece :: pieces
      | [] => [String a EmptyString]
      end
  end.

Definition has_char (c : ascii) (s : string) : bool :=
  existsb (Ascii.eqb c) (list_ascii_of_string s).

(** [str(n)] for a Python int *)
Definition str_int (z : Z) : string := NilZero.string_of_int (Z.to_int z).

(** [re.sub("[£,]", "", s)]: the pound sign is the two bytes 194 163. *)
Fixpoint remove_currency (s : string) : string :=
  match s with
  | EmptyString => EmptyString
  | String a s0 =>
      match s0 with
      | String b s' =>
          if (nat_of_ascii a =? 194) && (nat_of_ascii b =? 163) then remove_currency s'
          else if Ascii.eqb a "," then remove_currency s0
          else String a (remove_currency s0)
      | EmptyString => if Ascii.eqb a "," then EmptyString else s
      end
  end.





(** Plain decimals: an optional minus sign, digits, and an optional point
    followed by digits. *)
Definition parse_decimal (s : string) : option (Z * positive) :=
  let (neg, body) :=
    match s with
    | String "-" s' => (true, s')
    | _ => (false, s)
    end in
  let read (whole frac : string) :=
    match whole, NilEmpty.uint_of_string whole, NilEmpty.uint_of_string frac with
    | String _ _, Some w, Some f =>
        let scale := Pos.pow 10 (Pos.of_succ_nat (String.length frac)) in
        let n := (Z.of_uint w * Z.pos scale + 10 * Z.of_uint f)%Z in
        Some (if neg then (- n)%Z else n, scale)
    | _, _, _ => None
    end in
  match split_on "." body with
  | [whole] => read whole EmptyString
  | [whole; frac] => read whole frac
  | _ => None
  end.

End Text.

(** ** Numbers *)

Definition Qc_eqb (a b : Qc) : bool := Qeq_bool (this a) (this b).
Definition Qc_ltb (a b : Qc) : bool := negb (Qle_bool (this b) (this a)).
Definition Qc_leb (a b : Qc) : bool := Qle_bool (this a) (this b).

Global Instance Qc_eq_decision : EqDecision Qc.
Proof.
  intros a b. destruct (Qc_eqb a b) eqn:E.
  - left. abstract (apply Qc_is_canon; by apply Qeq_bool_iff).
  - right. abstract (intros ->; apply Qeq_bool_neq in E; by apply E).
Defined.

(** Round half to even, the rounding of [round(x, 2)] on the scaled value. *)
Definition rint (q : Q) : Z :=
  let f := Qfloor q in
  match (q - inject_Z f ?= 1 # 2)%Q with
  | Lt => f
  | Gt => (f + 1)%Z
  | Eq => if Z.even f then f else (f + 1)%Z
  end.

Definition round2 (x : Qc) : Qc :=
  Q2Qc (inject_Z (rint (this x * 100)) / 100).


(** A float64: not-a-number or a finite value. *)
Inductive float := nan | fin (x : Qc).

Definition float_round2 (f : float) : float :=
  match f with nan => nan | fin x => fin (round2 x) end.

(** [f > 0]: false on nan *)
Definition float_pos (f : float) : bool :=
  match f with nan => false | fin x => Qc_ltb 0 x end.

(** [f == g]: false as soon as one side is nan *)
Definition float_eqb (f g : float) : bool :=
  match f, g with fin x, fin y => Qc_eqb x y | _, _ => false end.

(** ** Cells, rows and frames *)

Inductive cell :=
| NA                (* None, NaN, NaT *)
| Num (x : Qc)      (* int64 / float64 *)
| Str (s : string)
| Day (d : Z)       (* datetime.date, days since 1970-01-01 *)
| Stamp (t : Z).    (* Timestamp, seconds since the epoch *)

Global Instance cell_eq_decision : EqDecision cell.
Proof. solve_decision. Defined.

Abbreviation row := (gmap string cell).

Record DataFrame := mkDF { columns : list string; rows : list row }.

(** What ends a run early. *)
Inductive halt :=
| FixtureMismatch (matched total : nat)
| NoCompletedOrders
| ReconciliationMismatch (sum_preorders sum_consolidated : Qc)
| MergedEmpty
| MissingEventDate.

Inductive result (A : Type) :=
| Ok (a : A)
| Stop (h : halt)           (* st.error / st.warning followed by st.stop() *)
| Raise (exn : string).     (* an uncaught Python exception *)
Arguments Ok {A} a.
Arguments Stop {A} h.
Arguments Raise {A} exn.

Definition bind {A B} (m : result A) (k : A → result B) : result B :=
  match m with
  | Ok a => k a
  | Stop h => Stop h
  | Raise e => Raise e
  end.

Notation "'let*' x ':=' m 'in' k" := (bind m (fun x => k))
  (at level 10, x name, m at level 100, k at level 200).



Fixpoint traverse {A B} (f : A → result B) (l : list A) : result (list B) :=
  match l with
  | [] => Ok []
  | a :: l' => let* b := f a in let* bs := traverse f l' in Ok (b :: bs)
  end.

(** [row.get(k, d)] *)
Definition get (r : row) (k : string) (d : cell) : cell := default d (r !! k).

(** [row[k]]: KeyError when the column is absent *)
Definition item (r : row) (k : string) : result cell :=
  match r !! k with Some c => Ok c | None => Raise "KeyError" end.

(** A cell used as a float; building a float from text or a date is a
    TypeError. *)
Definition as_float (c : cell) : result float :=
  match c with
  | NA => Ok nan
  | Num x => Ok (fin x)
  | _ => Raise "TypeError"
  end.

(** ** Payment status (assign_payment_status) *)

Definition assign_payment_status (r : row) : result string :=
  let* total_val := as_float (get r "BoxTotal" (Num 0)) in
  let* drawdown_val := as_float (get r "Drawdown" (Num 0)) in
  let* credit_val := as_float (get r "Credit Card" (Num 0)) in
  let* purchase_order_val := as_float (get r "Purchase orders" (Num 0)) in
  let* eft_val := as_float (get r "EFT" (Num 0)) in
  let total_2dec := float_round2 total_val in
  let drawdown_2dec := float_round2 drawdown_val in
  let credit_2dec := float_round2 credit_val in
  let purchase_order_2dec := float_round2 purchase_order_val in
  let eft_2dec := float_round2 eft_val in
  if float_pos drawdown_2dec && float_eqb total_2dec drawdown_2dec then Ok "Drawdown"
  else if float_pos credit_2dec && float_eqb total_2dec credit_2dec then Ok "Credit Card"
  else if float_pos purchase_order_2dec && float_eqb total_2dec purchase_order_2dec
       then Ok "Purchase Order"
  else if float_pos eft_2dec && float_eqb total_2dec eft_2dec then Ok "EFT"
  else Ok "".


(** The same rule as a search: the label of the first payment method, in the
    order of the code, whose rounded amount passes [guard] and equals the
    rounded box total; the empty string when there is none. *)
Definition payment_methods : list (string * string) :=
  [("Drawdown", "Drawdown"); ("Credit Card", "Credit Card");
   ("Purchase orders", "Purchase Order"); ("EFT", "EFT")].

Definition first_exact_match (guard : float → bool) (r : row) : result string :=
  let* total := as_float (get r "BoxTotal" (Num 0)) in
  let* amounts :=
    traverse (fun m : string * string =>
                let* v := as_float (get r m.1 (Num 0)) in
                Ok (m.2, float_round2 v)) payment_methods in
  Ok (match List.find (fun a : string * float =>
                         guard a.2 && float_eqb (float_round2 total) a.2) amounts with
      | Some a => a.1
      | None => ""
      end).

(** The rule in the words of the specification: plain exact equality. *)
Definition spec_payment_status : row → result string :=
  first_exact_match (fun _ => true).

Definition qc (n : Z) (d : positive) : Qc := Q2Qc (n # d).

Definition payment_row (total drawdown credit po eft : cell) : row :=
  <["BoxTotal" := total]> (<["Drawdown" := drawdown]> (<["Credit Card" := credit]>
  (<["Purchase orders" := po]> (<["EFT" := eft]> ∅)))).

(** ** pandas operations *)

(** The conversions between text and values that the embedding takes from
    pandas as they are: [str(x)] of a number or a date, the parser of
    [pd.to_numeric] and the parser of [pd.to_datetime] (a Timestamp in
    seconds, None for what [errors="coerce"] turns into NaT). *)
Record Conversions := {
  repr : cell → string;
  parse_number : string → option Qc;
  parse_datetime : string → option Z;
  parse_datetime_dayfirst : string → option Z;
  datetime_of_number : Qc → option Z
}.

(** [df[c]] read at one row; a frame has a cell for each of its columns. *)
Definition getcol (r : row) (c : string) : cell := default NA (r !! c).

Definition notna (c : cell) : bool := negb (bool_decide (c = NA)).

(** [.astype(str)] *)
Definition astype_str (P : Conversions) (c : cell) : string :=
  match c with
  | Str s => s
  | NA => "nan"
  | _ => repr P c
  end.

(** Timestamps are 64-bit nanosecond counts: midnight of day [d] is one of
    them exactly when [d] lies in this range. *)
Definition timestamp_day_min : Z := -106751.
Definition timestamp_day_max : Z := 106751.

(** [pd.to_datetime(c, errors="coerce")] *)
Definition to_datetime (P : Conversions) (c : cell) : option Z :=
  match c with
  | NA => None
  | Stamp t => Some t
  | Day d =>
      if (timestamp_day_min <=? d)%Z && (d <=? timestamp_day_max)%Z
      then Some (d * 86400)%Z else None
  | Str s => parse_datetime P s
  | Num x => datetime_of_number P x
  end.

(** [.dt.date] / [.date()] of a Timestamp or NaT *)
Definition date_of (t : option Z) : cell :=
  match t with Some t => Day (t / 86400) | None => NA end.


Definition has_columns (df : DataFrame) (cols : list string) : bool :=
  forallb (fun c => bool_decide (c ∈ columns df)) cols.

(** [df[cols]] *)
Definition select (df : DataFrame) (cols : list string) : result DataFrame :=
  if has_columns df cols
  then Ok (mkDF cols (map (fun r => list_to_map (map (fun c => (c, getcol r c)) cols)) (rows df)))
  else Raise "KeyError".

(** [df[mask]] *)
Definition where_ (p : row → bool) (df : DataFrame) : DataFrame :=
  mkDF (columns df) (List.filter p (rows df)).

(** [df[c] = f(row)]: a new column goes last. *)
Definition assign (c : string) (f : row → cell) (df : DataFrame) : DataFrame :=
  mkDF (if bool_decide (c ∈ columns df) then columns df else columns df ++ [c])
       (map (fun r => <[c := f r]> r) (rows df)).

(** The same with a cell function that can raise. *)
Definition assign_r (c : string) (f : row → result cell) (df : DataFrame)
  : result DataFrame :=
  let* rs := traverse (fun r => let* v := f r in Ok (<[c := v]> r)) (rows df) in
  Ok (mkDF (if bool_decide (c ∈ columns df) then columns df else columns df ++ [c]) rs).

(** [df.rename(columns={old: new})] *)
Definition rename (old new : string) (df : DataFrame) : DataFrame :=
  mkDF (map (fun c => if bool_decide (c = old) then new else c) (columns df))
       (map (fun r => match r !! old with
                      | Some v => <[new := v]> (delete old r)
                      | None => r
                      end) (rows df)).

(** [df.drop(columns=[c])] of a column known to be there *)
Definition drop_column (c : string) (df : DataFrame) : DataFrame :=
  mkDF (List.filter (fun c' => negb (bool_decide (c' = c))) (columns df))
       (map (delete c) (rows df)).

(** [df.dropna(how="all")] *)
Definition dropna_all (df : DataFrame) : DataFrame :=
  where_ (fun r => existsb (fun c => notna (getcol r c)) (columns df)) df.

(** [df.empty] *)
Definition empty_frame (df : DataFrame) : bool :=
  match rows df, columns df with
  | [], _ | _, [] => true
  | _, _ => false
  end.

(** Keep the first of equal items ([drop_duplicates], [unique]). *)
Fixpoint keep_first {A} `{EqDecision A} (l : list A) : list A :=
  match l with
  | [] => []
  | x :: l' => x :: List.filter (fun y => negb (bool_decide (y = x))) (keep_first l')
  end.

Definition drop_duplicates (df : DataFrame) : DataFrame :=
  mkDF (columns df) (keep_first (rows df)).

(** The values of the key columns of a row. *)
Definition key_of (keys : list string) (r : row) : list cell := map (getcol r) keys.

Definition key_has_na (k : list cell) : bool := existsb (fun c => negb (notna c)) k.

(** The order of [sort_values] and of the group keys: missing values last,
    numbers by value, text by code point, dates by time. Cells of two kinds
    never meet in one column of these frames; the order ranks them by kind. *)
Definition kind (c : cell) : nat :=
  match c with Num _ => 0 | Str _ => 1 | Day _ => 2 | Stamp _ => 3 | NA => 4 end.

Definition cell_leb (a b : cell) : bool :=
  match a, b with
  | Num x, Num y => Qc_leb x y
  | Str s, Str t => String.leb s t
  | Day d, Day e => (d <=? e)%Z
  | Stamp t, Stamp u => (t <=? u)%Z
  | _, _ => kind a <=? kind b
  end.

Fixpoint key_leb (k1 k2 : list cell) : bool :=
  match k1, k2 with
  | a :: k1', b :: k2' => if bool_decide (a = b) then key_leb k1' k2' else cell_leb a b
  | [], _ => true
  | _ :: _, [] => false
  end.

(** A stable insertion sort. *)
Fixpoint insert_by {A} (leb : A → A → bool) (x : A) (l : list A) : list A :=
  match l with
  | [] => [x]
  | y :: l' => if leb x y then x :: l else y :: insert_by leb x l'
  end.

Definition sort_by {A} (leb : A → A → bool) (l : list A) : list A :=
  foldr (insert_by leb) [] l.

(** [df.sort_values(keys)] *)
Definition sort_values (df : DataFrame) (keys : list string) : result DataFrame :=
  if has_columns df keys
  then Ok (mkDF (columns df)
                (sort_by (fun r1 r2 => key_leb (key_of keys r1) (key_of keys r2)) (rows df)))
  else Raise "KeyError".

(** [Series.sum()]: missing values are skipped. *)
Fixpoint sum_skipna (l : list cell) : result Qc :=
  match l with
  | [] => Ok 0%Qc
  | c :: l' =>
      let* f := as_float c in
      let* s := sum_skipna l' in
      Ok (match f with nan => s | fin x => (x + s)%Qc end)
  end.

(** [df[c].fillna(0).sum()] *)
Definition column_sum (df : DataFrame) (c : string) : result Qc :=
  if bool_decide (c ∈ columns df)
  then sum_skipna (map (fun r => getcol r c) (rows df))
  else Raise "KeyError".


Definition group_rows (keys : list string) (k : list cell) (rs : list row) : list row :=
  List.filter (fun r => bool_decide (key_of keys r = k)) rs.


(** [left.merge(right, how="left", on=keys, suffixes=...)]: the rows of the
    left frame in their order, each once for every right row with the same
    key and once with missing right cells when there is none. Columns that
    both frames have outside the key get the suffixes. *)
Definition merge_left (l r : DataFrame) (keys : list string) (suffixes : string * string)
  : result DataFrame :=
  if has_columns l keys && has_columns r keys then
    let overlap c :=
      bool_decide (c ∈ columns l) && bool_decide (c ∈ columns r)
      && negb (bool_decide (c ∈ keys)) in
    let lname c := if overlap c then c +:+ suffixes.1 else c in
    let rname c := if overlap c then c +:+ suffixes.2 else c in
    let rcols := List.filter (fun c => negb (bool_decide (c ∈ keys))) (columns r) in
    let lpart (x : row) : row :=
      list_to_map (map (fun c => (lname c, getcol x c)) (columns l)) in
    let rpart (y : option row) : row :=
      list_to_map (map (fun c => (rname c, from_option (fun y => getcol y c) NA y)) rcols) in
    Ok (mkDF (map lname (columns l) ++ map rname rcols)
             (flat_map (fun x =>
                match group_rows keys (key_of keys x) (rows r) with
                | [] => [lpart x ∪ rpart None]
                | ys => map (fun y => lpart x ∪ rpart (Some y)) ys
                end) (rows l)))
  else Raise "KeyError".

(** ** Location strings (standardize_location) *)

Definition lower_strip (P : Conversions) (c : cell) : cell :=
  Str (Text.lower (Text.strip (astype_str P c))).

(** [.str.replace(r"^exec\s+", "executive ", regex=True)]: the [.str] methods
    give a missing value on a cell that is not text. *)
Definition str_replace_exec (c : cell) : cell :=
  match c with
  | Str s => Str (Text.replace_exec s)
  | _ => NA
  end.

Definition standardize_location (P : Conversions) (df : DataFrame) (loc_col : string)
  : result DataFrame :=
  if bool_decide (loc_col ∈ columns df) then
    let df := assign loc_col (fun r => lower_strip P (getcol r loc_col)) df in
    Ok (assign loc_col (fun r => str_replace_exec (getcol r loc_col)) df)
  else Raise "KeyError".

(** [df[c] = df[c].astype(str).str.strip().str.lower()] *)
Definition standardize_text (P : Conversions) (c : string) (df : DataFrame)
  : result DataFrame :=
  if bool_decide (c ∈ columns df)
  then Ok (assign c (fun r => lower_strip P (getcol r c)) df)
  else Raise "KeyError".

(** ** The consolidated payment report (preprocess_consolidated_payment_report)

    The argument is the sheet as [pd.read_excel(file, skiprows=5, header=0)]
    returns it. *)

Definition keep_cols : list string :=
  ["Location"; "Drawdown"; "Credit Card"; "Purchase orders"; "EFT"].

Definition currency_amount (P : Conversions) (c : cell) : cell :=
  Num (default 0%Qc (parse_number P (Text.remove_currency (astype_str P c)))).

Definition preprocess_consolidated_payment_report (P : Conversions) (sheet : DataFrame)
  : result DataFrame :=
  let df := rename "Credit card" "Credit Card" sheet in
  let* df := select df keep_cols in
  let df := dropna_all df in
  let df := where_ (fun r =>
              negb (Text.contains "total"
                      (Text.lower (astype_str P (getcol r "Location"))))) df in
  Ok (foldl (fun df col => assign col (fun r => currency_amount P (getcol r col)) df)
            df ["Drawdown"; "Credit Card"; "Purchase orders"; "EFT"]).

(** ** The consolidated section of [run]

    [df_merged] is the merged table as it stands after the rename of Total
    and Status to PreOrderTotal and PreOrderStatus. *)

Section ConsolidatedSection.

Context (P : Conversions).
Context (selected_event : string) (selected_event_date : Z).

Definition selected_event_lower : string := Text.lower (Text.strip selected_event).

Definition match_mask (r : row) : bool :=
  bool_decide (getcol r "Event" = Str selected_event_lower)
  && bool_decide (getcol r "EventDate" = Day selected_event_date).

(** The report has no Event and no EventDate column: they are added from the
    selection, then standardized. *)
Definition with_fixture_columns (df_consolidated : DataFrame) : DataFrame :=
  let df_consolidated :=
    if bool_decide ("Event" ∈ columns df_consolidated) then df_consolidated
    else assign "Event" (fun _ => Str (Text.lower (Text.strip selected_event)))
                df_consolidated in
  let df_consolidated :=
    if bool_decide ("EventDate" ∈ columns df_consolidated) then df_consolidated
    else assign "EventDate" (fun _ => Day selected_event_date) df_consolidated in
  let df_consolidated :=
    assign "Event" (fun r => lower_strip P (getcol r "Event")) df_consolidated in
  assign "EventDate" (fun r => date_of (to_datetime P (getcol r "EventDate")))
         df_consolidated.

(** The report checked against the selected fixture. *)
Definition consolidated_for_fixture (consolidated_file : DataFrame) : result DataFrame :=
  let* df_consolidated := preprocess_consolidated_payment_report P consolidated_file in
  let df_consolidated := with_fixture_columns df_consolidated in
  let match_count := length (List.filter match_mask (rows df_consolidated)) in
  let total_rows := length (rows df_consolidated) in
  if negb (match_count =? total_rows) then Stop (FixtureMismatch match_count total_rows)
  else
    let df_consolidated := where_ match_mask df_consolidated in
    let* df_consolidated := standardize_location P df_consolidated "Location" in
    standardize_text P "Event" df_consolidated.




















End ConsolidatedSection.

(** ** Lump sums (lumpsum_deduping) *)

(** The rows of a frame with their index labels. *)
Fixpoint indexed_from {A} (n : nat) (l : list A) : list (nat * A) :=
  match l with
  | [] => []
  | x :: l' => (n, x) :: indexed_from (S n) l'
  end.

Definition set_total_zero (r : row) : row := <["Total" := Num 0%Qc]> r.

(** [clear_lumpsums]: in a group of more than one row, the Total of every
    row after the first is set to 0; [get_loc] raises when there is no Total
    column. *)
Definition clear_lumpsums (cols : list string) (grp : list (nat * row))
  : result (list (nat * row)) :=
  match grp with
  | first :: (_ :: _) as rest =>
      if bool_decide ("Total" ∈ cols)
      then Ok (first :: map (fun ir => (ir.1, set_total_zero ir.2)) rest)
      else Raise "KeyError"
  | _ => Ok grp
  end.

(** [df.groupby(keys, group_keys=False).apply(f)] for an [f] that returns its
    group with the index unchanged: every row of the frame, in the order of
    the frame, is replaced by the row with its label in the result of its
    group; the rows with a missing key are in no group and are dropped
    (dropna=True). *)
Definition groupby_apply
  (f : list (nat * row) → result (list (nat * row)))
  (df : DataFrame) (keys : list string) : result DataFrame :=
  if has_columns df keys then
    let labelled := indexed_from 0 (rows df) in
    let* out :=
      traverse (fun ir : nat * row =>
                  let k := key_of keys ir.2 in
                  if key_has_na k then Ok None
                  else
                    let* g := f (List.filter
                                   (fun jr : nat * row => bool_decide (key_of keys jr.2 = k))
                                   labelled) in
                    Ok (snd <$> List.find (fun jr : nat * row => jr.1 =? ir.1) g))
               labelled in
    Ok (mkDF (columns df) (omap id out))
  else Raise "KeyError".

(** [merge_keys.append("Ordered_on")] when the frame has that column *)
Definition lumpsum_keys (df : DataFrame) (merge_keys : list string) : list string :=
  if bool_decide ("Ordered_on" ∈ columns df) then merge_keys ++ ["Ordered_on"]
  else merge_keys.

Definition lumpsum_deduping (df : DataFrame) (merge_keys : list string)
  : result DataFrame :=
  let merge_keys := lumpsum_keys df merge_keys in
  let* df := sort_values df merge_keys in
  let* df := groupby_apply (clear_lumpsums (columns df)) df merge_keys in
  Ok (drop_duplicates df).

(** What the zeroing amounts to, row by row: a row with a complete key keeps
    its cells when no earlier row has its key, and has Total 0 otherwise. *)
Definition zero_after_first (keys : list string) (rs : list row) : list row :=
  omap (fun ir : nat * row =>
          let k := key_of keys ir.2 in
          if key_has_na k then None
          else Some (if bool_decide (k ∈ map (key_of keys) (take ir.1 rs))
                     then set_total_zero ir.2 else ir.2))
       (indexed_from 0 rs).

(** The amount in a cell, a missing value counting for nothing. *)
Definition amount (c : cell) : Qc :=
  match c with Num x => x | _ => 0%Qc end.

Fixpoint total_amount (rs : list row) : Qc :=
  match rs with
  | [] => 0%Qc
  | r :: rs' => (amount (getcol r "Total") + total_amount rs')%Qc
  end.

(** A Total that is an amount and is not negative. *)
Definition nonneg_total (r : row) : Prop :=
  ∃ x, getcol r "Total" = Num x ∧ (0 <= x)%Qc.

(** ** Event ids (map_event_id and lines 365-370 of [run]) *)

Abbreviation event_key := (string * string * option Z)%type.

(** The key that [map_event_id] looks up: stripped location and event, and
    the date of Event_Date when the row has one that is not missing. *)
Definition lookup_key (P : Conversions) (r : row) : result event_key :=
  let* location := item r "Location" in
  let loc := Text.strip (astype_str P location) in
  let* event := item r "Event" in
  let evt := Text.strip (astype_str P event) in
  let* date_val :=
    match r !! "Event_Date" with
    | Some (Stamp t) => Ok (Some (t / 86400)%Z)
    | Some NA | None => Ok None
    | Some _ => Raise "AttributeError"
    end in
  Ok (loc, evt, date_val).

Definition map_event_id (P : Conversions) (r : row) (event_map : gmap event_key string)
  : result (option string) :=
  let* key := lookup_key P r in
  Ok (event_map !! key).

(** [pd.to_datetime(c, dayfirst=True, errors="coerce")] as a cell *)
Definition to_datetime_dayfirst (P : Conversions) (c : cell) : cell :=
  match c with
  | Str s => from_option Stamp NA (parse_datetime_dayfirst P s)
  | _ => from_option Stamp NA (to_datetime P c)
  end.

(** [astype(int)] truncates towards zero. *)
Definition Qc_trunc (x : Qc) : Qc :=
  Q2Qc (inject_Z (Z.quot (Qnum (this x)) (Z.pos (Qden (this x))))).

(** [pd.to_numeric(c, errors="coerce").fillna(0).astype(int)] *)
Definition int_or_zero (P : Conversions) (c : cell) : cell :=
  match c with
  | Num x => Num (Qc_trunc x)
  | Str s => Num (from_option Qc_trunc 0%Qc (parse_number P s))
  | _ => Num 0%Qc
  end.

(** Line 369: the EventId column as [map_event_id] gives it. *)
Definition with_event_ids (P : Conversions) (df_manual : DataFrame)
  (event_map : gmap event_key string) : result DataFrame :=
  if negb (bool_decide ("Event_Date" ∈ columns df_manual)) then Stop MissingEventDate
  else
    let df_manual :=
      assign "Event_Date" (fun r => to_datetime_dayfirst P (getcol r "Event_Date"))
             df_manual in
    assign_r "EventId"
             (fun r => let* eid := map_event_id P r event_map in
                       Ok (from_option Str NA eid))
             df_manual.

(** Lines 365-370. *)
Definition resolve_event_ids (P : Conversions) (df_manual : DataFrame)
  (event_map : gmap event_key string) : result DataFrame :=
  let* df_manual := with_event_ids P df_manual event_map in
  Ok (assign "EventId" (fun r => int_or_zero P (getcol r "EventId")) df_manual).

(** ** The API response as a menu table (process_api_menu) *)

Record MenuChoice := {
  Name : option string;
  Quantity : option Qc;
  Price : option Qc
}.

Record PreOrderItem := {
  ProductName : option string;
  OrderedAmount : option Qc;
  ItemPrice : option Qc
}.

(** One catering pre-order of the API joined with its event. *)
Record ApiRow := {
  Guest : option string;
  ApiLocation : cell;
  ApiEvent : cell;
  EventId : option Z;
  KickOffEventStart : option string;
  Status : cell;
  FoodMenu : option MenuChoice;
  KidsFoodMenu : option MenuChoice;
  DrinkMenu : option MenuChoice;
  KidsDrinkMenu : option MenuChoice;
  PreOrderItems : list PreOrderItem
}.

Definition nonempty (s : string) : bool := negb (String.eqb s EmptyString).

(** [str(eid)] *)
Definition str_eid (eid : option Z) : string :=
  match eid with Some z => Text.str_int z | None => "None" end.

Definition opt_str (s : option string) : cell := from_option Str NA s.

Definition menu_line (eid : option Z) (loc evt : string) (event_date_api : cell)
  (guest_name : string) (guest_email : option string) (order_type : string)
  (menu_item : option string) (qty price : Qc) (status : cell) : row :=
  list_to_map
    [("EventId", Str (str_eid eid)); ("Location", Str loc); ("Event", Str evt);
     ("KickOffEventStart", event_date_api); ("Guest_name", Str guest_name);
     ("Guest_email", opt_str guest_email); ("Order_type", Str order_type);
     ("Menu_Item", opt_str menu_item); ("OrderedAmount", Num qty);
     ("PricePerUnit", Num price); ("ApiPrice", Num (price * qty)%Qc);
     ("Status", status)].

Definition menu_columns : list string :=
  ["EventId"; "Location"; "Event"; "KickOffEventStart"; "Guest_name"; "Guest_email";
   "Order_type"; "Menu_Item"; "OrderedAmount"; "PricePerUnit"; "ApiPrice"; "Status"].

Definition menu_key : list string :=
  ["EventId"; "Location"; "Event"; "Guest_name"; "Guest_email"; "Order_type"; "Menu_Item"].

(** The lines and the event-map entry of one API row. *)
Definition api_row_lines (P : Conversions) (a : ApiRow)
  : list row * option (event_key * string) :=
  let guest := default EmptyString (Guest a) in
  let guest_name :=
    if Text.has_char "(" guest
    then Text.strip (default EmptyString (head (Text.split_on "(" guest)))
    else guest in
  let guest_email :=
    if Text.has_char "(" guest && Text.has_char ")" guest
    then Some (Text.lower (Text.strip
                 (Text.remove_char ")" (default EmptyString (last (Text.split_on "(" guest))))))
    else None in
  let loc := Text.strip (astype_str P (ApiLocation a)) in
  let evt := Text.strip (astype_str P (ApiEvent a)) in
  let eid := EventId a in
  let event_date_api : option Z :=
    match KickOffEventStart a with
    | Some raw_date =>
        if nonempty raw_date
        then (fun t => (t / 86400)%Z) <$> parse_datetime P raw_date else None
    | None => None
    end in
  let entry :=
    match eid, event_date_api with
    | Some z, Some date =>
        if negb (z =? 0)%Z && nonempty loc && nonempty evt
        then Some ((loc, evt, Some date), str_eid eid) else None
    | _, _ => None
    end in
  let line := menu_line eid loc evt (from_option Day NA event_date_api)
                        guest_name guest_email in
  let choices :=
    flat_map (fun tk : string * option MenuChoice =>
                match tk.2 with
                | Some val =>
                    match Name val with
                    | Some name =>
                        if nonempty name
                        then [line tk.1 (Some name) (default 1%Qc (Quantity val))
                                   (default 0%Qc (Price val)) (Status a)]
                        else []
                    | None => []
                    end
                | None => []
                end)
             [("Food", FoodMenu a); ("Kids Food", KidsFoodMenu a);
              ("Drink", DrinkMenu a); ("Kids Drink", KidsDrinkMenu a)] in
  let items :=
    map (fun pit => line "Enhancement" (ProductName pit)
                         (default 1%Qc (OrderedAmount pit))
                         (default 0%Qc (ItemPrice pit)) (Status a))
        (PreOrderItems a) in
  (choices ++ items, entry).

(** [df.drop_duplicates(subset=keys)]: the first row of each key is kept. *)
Fixpoint keep_first_by {A K} `{EqDecision K} (key : A → K) (l : list A) : list A :=
  match l with
  | [] => []
  | x :: l' =>
      x :: List.filter (fun y => negb (bool_decide (key y = key x))) (keep_first_by key l')
  end.

Definition process_api_menu (P : Conversions) (df_api : list ApiRow)
  : DataFrame * gmap event_key string :=
  let menu := flat_map (fun a => (api_row_lines P a).1) df_api in
  let event_map :=
    foldl (fun m a => match (api_row_lines P a).2 with
                      | Some (k, v) => <[k := v]> m
                      | None => m
                      end) ∅ df_api in
  let df_menu :=
    match menu with
    | [] => mkDF [] []
    | _ => mkDF menu_columns (keep_first_by (key_of menu_key) menu)
    end in
  (df_menu, event_map).

(** Lines 359-360: the event ids of the menu table as integers. *)
Definition menu_with_numeric_ids (P : Conversions) (df_menu : DataFrame) : DataFrame :=
  if bool_decide ("EventId" ∈ columns df_menu)
  then assign "EventId" (fun r => int_or_zero P (getcol r "EventId")) df_menu
  else df_menu.

(** ** The per-event fetch (fetch_api_preorders) *)




(** ** The merge of the manual report with the API menu (lines 375-380) *)

Definition merge_keys : list string :=
  ["EventId"; "Location"; "Event"; "Guest_name"; "Guest_email"; "Order_type"].

Definition merged_orders (df_manual df_menu : DataFrame) : result DataFrame :=
  let* df_merged := merge_left df_manual df_menu merge_keys ("_manual", "_api") in
  let* df_merged := lumpsum_deduping df_merged merge_keys in
  if empty_frame df_merged then Stop MergedEmpty else Ok df_merged.

(** ** Sample data

    Conversions that read plain decimals and three dates, and a small
    fixture: one box with two completed lines of 200.00 and 300.00. *)

Definition sample_conversions : Conversions := {|
  repr := fun _ => "?";
  parse_number := fun s =>
    match Text.parse_decimal s with
    | Some (n, d) => Some (qc n d)
    | None => None
    end;
  parse_datetime := fun s =>
    if String.eqb s "2024-09-01T16:30:00" then Some 1725208200%Z else None;
  parse_datetime_dayfirst := fun s =>
    if String.eqb s "01/09/2024" then Some 1725148800%Z
    else if String.eqb s "08/09/2024" then Some 1725753600%Z else None;
  datetime_of_number := fun _ => None
|}.

Definition mkrow (cells : list (string * cell)) : row := list_to_map cells.

Definition sample_report (drawdown : string) : DataFrame :=
  mkDF ["Location"; "Drawdown"; "Credit card"; "Purchase orders"; "EFT"; "Balance"]
       [mkrow [("Location", Str "Exec Box 1"); ("Drawdown", Str drawdown);
               ("Credit card", Str "0.00"); ("Purchase orders", NA);
               ("EFT", Str "0"); ("Balance", Str "0")];
        mkrow [("Location", Str "Grand Total"); ("Drawdown", Str drawdown);
               ("Credit card", Str "0.00"); ("Purchase orders", NA);
               ("EFT", Str "0"); ("Balance", Str "0")]].

Definition sample_line (guest status : string) (total : Qc) : row :=
  mkrow [("EventId", Num (qc 77 1)); ("Event", Str "Arsenal v Chelsea");
         ("Location", Str "exec  box 1"); ("Event_Date", Stamp 1725202800);
         ("Guest_name", Str guest); ("Guest_email", Str "j@x.com");
         ("Ordered_on", Stamp 1724000000); ("Licence_type", Str "Seasonal");
         ("Order_type", Str "Food"); ("Menu_Item", Str "Menu A");
         ("PreOrderStatus", Str status); ("PreOrderTotal", Num total);
         ("OrderedAmount", Num (qc 1 1)); ("PricePerUnit", Num total);
         ("ApiPrice", Num total)].

Definition sample_merged : DataFrame :=
  mkDF ["EventId"; "Event"; "Location"; "Event_Date"; "Guest_name"; "Guest_email";
        "Ordered_on"; "Licence_type"; "Order_type"; "Menu_Item"; "PreOrderStatus";
        "PreOrderTotal"; "OrderedAmount"; "PricePerUnit"; "ApiPrice"]
       [sample_line "J Smith" "Completed" (qc 200 1);
        sample_line "A Jones" "Completed" (qc 300 1);
        sample_line "B Brown" "Pending" (qc 40 1)].

Definition merged_columns : list string :=
  ["EventId"; "Location"; "Event"; "Guest_name"; "Guest_email"; "Order_type";
   "Ordered_on"; "Total"; "Menu_Item"].

Definition order_line (guest : string) (ordered_on : Z) (total : Qc) (menu : cell) : row :=
  mkrow [("EventId", Num (qc 77 1)); ("Location", Str "Box 12");
         ("Event", Str "Arsenal v Chelsea"); ("Guest_name", Str guest);
         ("Guest_email", Str "j@x.com"); ("Order_type", Str "Food");
         ("Ordered_on", Stamp ordered_on); ("Total", Num total); ("Menu_Item", menu)].

(** One lump payment of 45.00 repeated on two menu lines, and another order. *)
Definition repeated_lump : DataFrame :=
  mkDF merged_columns
       [order_line "J Smith" 1724000000 (qc 45 1) (Str "Menu A");
        order_line "J Smith" 1724000000 (qc 45 1) (Str "Menu B");
        order_line "A Jones" 1723000000 (qc 20 1) NA].

(** An order of 3.00 followed by a refund line of -5.00 under the same key. *)
Definition refund_lines : DataFrame :=
  mkDF merged_columns
       [order_line "J Smith" 1724000000 (qc 3 1) (Str "Menu A");
        order_line "J Smith" 1724000000 (qc (-5) 1) (Str "Menu B")].

(** One API pre-order with a food menu and two enhancements, and a manual
    report with two food orders of the same guest, an enhancement order and
    an order for a fixture that the API does not list. *)
Definition sample_api : list ApiRow :=
  [{| Guest := Some "J Smith (J@X.com)"; ApiLocation := Str "Box 12";
      ApiEvent := Str "Arsenal v Chelsea "; EventId := Some 77%Z;
      KickOffEventStart := Some "2024-09-01T16:30:00"; Status := Str "Completed";
      FoodMenu := Some {| Name := Some "Menu A"; Quantity := Some (qc 2 1);
                          Price := Some (qc 45 2) |};
      KidsFoodMenu := None; DrinkMenu := None; KidsDrinkMenu := None;
      PreOrderItems :=
        [{| ProductName := Some "Champagne"; OrderedAmount := Some (qc 1 1);
            ItemPrice := Some (qc 80 1) |};
         {| ProductName := Some "Cake"; OrderedAmount := None;
            ItemPrice := Some (qc 20 1) |}] |}].

Definition manual_columns : list string :=
  ["Location"; "Event"; "Event_Date"; "Guest_name"; "Guest_email"; "Order_type";
   "Ordered_on"; "Total"; "Status"].

Definition manual_line (event : string) (event_date : Z) (guest email order_type : string)
  (ordered_on : string) (total : Qc) : row :=
  mkrow [("Location", Str "Box 12"); ("Event", Str event); ("Event_Date", Stamp event_date);
         ("Guest_name", Str guest); ("Guest_email", Str email);
         ("Order_type", Str order_type); ("Ordered_on", Str ordered_on);
         ("Total", Num total); ("Status", Str "Completed")].

Definition sample_manual : DataFrame :=
  mkDF manual_columns
       [manual_line "Arsenal v Chelsea" 1725148800 "J Smith" "j@x.com" "Food"
                    "2024-08-20 10:00" (qc 45 1);
        manual_line "Arsenal v Chelsea" 1725148800 "J Smith" "j@x.com" "Food"
                    "2024-08-21 11:00" (qc 30 1);
        manual_line "Arsenal v Chelsea" 1725148800 "J Smith" "j@x.com" "Enhancement"
                    "2024-08-20 10:00" (qc 100 1);
        manual_line "Arsenal v Spurs" 1725753600 "K Lee" "k@y.com" "Food"
                    "2024-08-22 09:00" (qc 25 1)].


(** ** More on the consolidated payment report *)

Definition amount_columns : list string :=
  ["Drawdown"; "Credit Card"; "Purchase orders"; "EFT"].

Definition mentions_total (P : Conversions) (r : row) : bool :=
  Text.contains "total" (Text.lower (astype_str P (getcol r "Location"))).



(** ** The event map *)


(** ** An API response without menu lines *)

Definition menu_named (m : option MenuChoice) : bool :=
  match m with
  | Some val => match Name val with Some name => nonempty name | None => false end
  | None => false
  end.

Definition orders_nothing (a : ApiRow) : Prop :=
  menu_named (FoodMenu a) = false ∧ menu_named (KidsFoodMenu a) = false ∧
  menu_named (DrinkMenu a) = false ∧ menu_named (KidsDrinkMenu a) = false ∧
  PreOrderItems a = [].

(** ** The sidebar filters (lines 383-429 of [run])

    Timestamps are taken to the second, as the report has them. *)

(** Lines 383-386. *)
Definition tidy_status (df_merged : DataFrame) : DataFrame :=
  let df_merged :=
    if bool_decide ("Status_manual" ∈ columns df_merged)
    then rename "Status_manual" "Status" df_merged else df_merged in
  if bool_decide ("Status_api" ∈ columns df_merged)
  then drop_column "Status_api" df_merged else df_merged.

(** Line 391. *)
Definition ordered_on_datetime (P : Conversions) (df_merged : DataFrame)
  : result DataFrame :=
  if bool_decide ("Ordered_on" ∈ columns df_merged)
  then Ok (assign "Ordered_on"
                  (fun r => from_option Stamp NA (to_datetime P (getcol r "Ordered_on")))
                  df_merged)
  else Raise "KeyError".

(** Lines 394-396: both bounds are the midnights of the chosen dates; a
    comparison with NaT is false. *)
Definition in_date_range (start_date end_date : Z) (c : cell) : bool :=
  match c with
  | Stamp t => (start_date * 86400 <=? t)%Z && (t <=? end_date * 86400)%Z
  | _ => false
  end.

Definition same_kind (l : list cell) : bool :=
  match l with
  | [] => true
  | c :: l' => forallb (fun d => kind d =? kind c) l'
  end.

(** [sorted(df[col].dropna().unique())]: values of two kinds do not compare. *)
Definition sorted_options (col : string) (df : DataFrame) : result (list cell) :=
  let values := keep_first (List.filter notna (map (fun r => getcol r col) (rows df))) in
  if same_kind values then Ok (sort_by cell_leb values) else Raise "TypeError".

(** [st.multiselect(label, options, default=options)]: the options that the
    user has left selected. *)
Definition multiselect (chosen : cell → bool) (options : list cell) : list cell :=
  List.filter chosen options.

(** One of the four filter blocks. *)
Definition filter_by_choice (chosen : cell → bool) (col : string) (df : DataFrame)
  : result DataFrame :=
  if bool_decide (col ∈ columns df) then
    let* options := sorted_options col df in
    let selected := multiselect chosen options in
    Ok (where_ (fun r => bool_decide (getcol r col ∈ selected)) df)
  else Ok df.

Record Sidebar := {
  start_date : Z;
  end_date : Z;
  location_choice : cell → bool;
  order_type_choice : cell → bool;
  menu_item_choice : cell → bool;
  status_choice : cell → bool
}.

(** The sidebar as it is before the user touches a filter. *)
Definition default_choices (start_date end_date : Z) : Sidebar :=
  {| start_date := start_date; end_date := end_date;
     location_choice := fun _ => true; order_type_choice := fun _ => true;
     menu_item_choice := fun _ => true; status_choice := fun _ => true |}.

Definition dated_orders (P : Conversions) (df_merged : DataFrame) : result DataFrame :=
  ordered_on_datetime P (tidy_status df_merged).

(** A merged table that has a Status column beside Status_manual leaves the
    renaming of line 384 with two columns of that name. *)
Definition status_twice (df_merged : DataFrame) : bool :=
  bool_decide ("Status_manual" ∈ columns df_merged)
  && bool_decide ("Status" ∈ columns df_merged).

(** Lines 383-424. With two Status columns [df_merged["Status"]] is a frame,
    which has no [unique]. *)
Definition filtered_orders (P : Conversions) (S : Sidebar) (df_merged : DataFrame)
  : result DataFrame :=
  let twice := status_twice df_merged in
  let* df_merged := dated_orders P df_merged in
  let df_merged :=
    where_ (fun r => in_date_range (start_date S) (end_date S) (getcol r "Ordered_on"))
           df_merged in
  let* df_merged := filter_by_choice (location_choice S) "Location" df_merged in
  let* df_merged := filter_by_choice (order_type_choice S) "Order_type" df_merged in
  let* df_merged := filter_by_choice (menu_item_choice S) "Menu_Item" df_merged in
  if twice then Raise "AttributeError"
  else filter_by_choice (status_choice S) "Status" df_merged.

(** What a filter block asks of a row: when the frame has the column, a
    cell that is not missing and that the user has left selected. *)
Definition passes_choice (cols : list string) (chosen : cell → bool) (col : string)
  (r : row) : bool :=
  negb (bool_decide (col ∈ cols)) || (notna (getcol r col) && chosen (getcol r col)).

Definition kept_by (S : Sidebar) (cols : list string) (r : row) : bool :=
  in_date_range (start_date S) (end_date S) (getcol r "Ordered_on")
  && passes_choice cols (location_choice S) "Location" r
  && passes_choice cols (order_type_choice S) "Order_type" r
  && passes_choice cols (menu_item_choice S) "Menu_Item" r
  && passes_choice cols (status_choice S) "Status" r.

(** Merged lines for the filters: an order with a matched menu item, one the
    API does not know, one placed on the end date at noon, one without an
    ordering time. *)
Definition filter_line (ordered_on menu status : cell) : row :=
  mkrow [("EventId", Num (qc 77 1)); ("Location", Str "Box 12");
         ("Event", Str "Arsenal v Chelsea"); ("Order_type", Str "Food");
         ("Ordered_on", ordered_on); ("Total", Num (qc 45 1)); ("Menu_Item", menu);
         ("Status_manual", status); ("Status_api", Str "Completed")].

Definition sample_filter_lines : DataFrame :=
  mkDF ["EventId"; "Location"; "Event"; "Order_type"; "Ordered_on"; "Total";
        "Menu_Item"; "Status_manual"; "Status_api"]
       [filter_line (Stamp 1724000000) (Str "Menu A") (Str "Completed");
        filter_line (Stamp 1724000000) NA (Str "Completed");
        filter_line (Stamp (19967 * 86400 + 43200)) (Str "Menu A") (Str "Completed");
        filter_line NA (Str "Menu B") (Str "Pending")].

Definition text_or_missing (c : cell) : bool :=
  match c with Str _ | NA => true | _ => false end.

Definition filter_columns : list string := ["Location"; "Order_type"; "Menu_Item"; "Status"].

Definition text_choices (r : row) : bool :=
  forallb (fun col => text_or_missing (getcol r col)) filter_columns.

(** Lines 375-424: the merge, the lump sums and the filters. *)
Definition filtered_merge (P : Conversions) (S : Sidebar) (df_manual df_menu : DataFrame)
  : result DataFrame :=
  let* df_merged := merged_orders df_manual df_menu in
  filtered_orders P S df_merged.

(** A manual report with resolved event ids and ordering times: an order
    that the API lists and one that it does not. *)
Definition stamped_line (eid : Z) (event guest email : string) : row :=
  <["EventId" := Num (qc eid 1)]>
    (<["Ordered_on" := Stamp 1724000000]>
       (manual_line event 1725148800 guest email "Food" "-" (qc 45 1))).

Definition stamped_manual : DataFrame :=
  mkDF ("EventId" :: manual_columns)
       [stamped_line 77 "Arsenal v Chelsea" "J Smith" "j@x.com";
        stamped_line 0 "Arsenal v Spurs" "K Lee" "k@y.com"].

Definition sample_menu : DataFrame :=
  menu_with_numeric_ids sample_conversions
    (process_api_menu sample_conversions sample_api).1.

Ltac no_suffix H c :=
  do 12 (destruct c as [|? c]; [cbv [append] in H; discriminate H|]);
  cbv [append] in H; discriminate H.

Definition status_and_time : list string :=
  ["Status"; "Status_manual"; "Status_api"; "Ordered_on"].

(** * Properties *)

(** ** Comparisons on amounts *)

Lemma Qc_eqb_eq (a b : Qc) : Qc_eqb a b = true ↔ a = b.
Proof.
  unfold Qc_eqb. rewrite Qeq_bool_iff. split.
  - apply Qc_is_canon.
  - intros ->. reflexivity.
Qed.

Lemma Qc_ltb_lt (a b : Qc) : Qc_ltb a b = true ↔ (a < b)%Qc.
Proof.
  unfold Qc_ltb, Qclt. rewrite negb_true_iff.
  destruct (Qle_bool b a) eqn:E.
  - apply Qle_bool_iff in E. split; [discriminate|]. intros H.
    exfalso. exact (Qlt_not_le _ _ H E).
  - split; [|reflexivity]. intros _. apply Qnot_le_lt. intros H.
    apply Qle_bool_iff in H. congruence.
Qed.

Lemma Qc_leb_le (a b : Qc) : Qc_leb a b = true ↔ (a <= b)%Qc.
Proof. unfold Qc_leb, Qcle. apply Qle_bool_iff. Qed.


(** ** Payment status *)

Lemma assign_payment_status_search (r : row) :
  assign_payment_status r = first_exact_match float_pos r.
Proof.
  unfold assign_payment_status, first_exact_match, payment_methods.
  cbn [traverse fst snd].
  destruct (as_float (get r "BoxTotal" (Num 0))) as [t| |]; cbn [bind]; try reflexivity.
  destruct (as_float (get r "Drawdown" (Num 0))) as [d| |]; cbn [bind]; try reflexivity.
  destruct (as_float (get r "Credit Card" (Num 0))) as [c| |]; cbn [bind]; try reflexivity.
  destruct (as_float (get r "Purchase orders" (Num 0))) as [p| |]; cbn [bind]; try reflexivity.
  destruct (as_float (get r "EFT" (Num 0))) as [e| |]; cbn [bind]; try reflexivity.
  cbn [List.find fst snd].
  repeat match goal with
         | |- context [if ?b then _ else _] => destruct b; try reflexivity
         end.
Qed.


(** C1, as the code has it: the status is the label of the first payment
    method, in the order Drawdown, Credit Card, Purchase Order, EFT, whose
    amount rounded to two decimals is strictly positive and equal to the
    rounded box total, and the empty string when there is none; a box total of
    100.00 is "Credit Card" against Credit Card = 100.00 with Drawdown = 0, and
    "Drawdown" against Drawdown = 100.00 with the others 0. *)
Theorem assign_payment_status_first_positive_match :
  (∀ r : row, assign_payment_status r = first_exact_match float_pos r) ∧
  assign_payment_status
    (payment_row (Num (qc 100 1)) (Num 0) (Num (qc 100 1)) (Num 0) (Num 0))
  = Ok "Credit Card" ∧
  assign_payment_status
    (payment_row (Num (qc 100 1)) (Num (qc 100 1)) (Num 0) (Num 0) (Num 0))
  = Ok "Drawdown".
Proof.
  split; [exact assign_payment_status_search|].
  split; vm_compute; reflexivity.
Qed.

(** C1 as worded (plain equality, no positivity test) fails on a box total of
    zero against payment amounts that are all zero: the wording selects
    "Drawdown", the code leaves the status empty. *)
Lemma assign_payment_status_zero_total :
  let r := payment_row (Num 0) (Num 0) (Num 0) (Num 0) (Num 0) in
  spec_payment_status r = Ok "Drawdown" ∧
  assign_payment_status r = Ok "" ∧
  assign_payment_status r ≠ spec_payment_status r.
Proof.
  cbv zeta. split; [vm_compute; reflexivity|].
  split; [vm_compute; reflexivity|].
  vm_compute. discriminate.
Qed.



(** ** Text *)

Lemma lower_char_idem (c : ascii) : Text.lower_char (Text.lower_char c) = Text.lower_char c.
Proof. destruct c as [[] [] [] [] [] [] [] []]; reflexivity. Qed.

Lemma is_space_lower_char (c : ascii) : Text.is_space (Text.lower_char c) = Text.is_space c.
Proof. destruct c as [[] [] [] [] [] [] [] []]; reflexivity. Qed.

Lemma lower_idem (s : string) : Text.lower (Text.lower s) = Text.lower s.
Proof. induction s as [|c s IH]; cbn; [reflexivity|]. by rewrite lower_char_idem, IH. Qed.

Lemma lstrip_lower (s : string) : Text.lstrip (Text.lower s) = Text.lower (Text.lstrip s).
Proof.
  induction s as [|c s IH]; cbn; [reflexivity|].
  rewrite is_space_lower_char. destruct (Text.is_space c); [exact IH|reflexivity].
Qed.

Lemma rstrip_lower (s : string) : Text.rstrip (Text.lower s) = Text.lower (Text.rstrip s).
Proof.
  induction s as [|c s IH]; cbn; [reflexivity|].
  rewrite IH, is_space_lower_char.
  destruct (Text.rstrip s); cbn; [destruct (Text.is_space c)|]; reflexivity.
Qed.

Lemma strip_lower (s : string) : Text.strip (Text.lower s) = Text.lower (Text.strip s).
Proof. unfold Text.strip. by rewrite lstrip_lower, rstrip_lower. Qed.

Lemma rstrip_idem (s : string) : Text.rstrip (Text.rstrip s) = Text.rstrip s.
Proof.
  induction s as [|c s IH]; cbn; [reflexivity|].
  destruct (Text.rstrip s) as [|d t] eqn:E.
  - destruct (Text.is_space c) eqn:Ec; cbn; [reflexivity|]. by rewrite Ec.
  - change (Text.rstrip (String c (String d t))) with
      (match Text.rstrip (String d t) with
       | EmptyString => if Text.is_space c then EmptyString else String c EmptyString
       | u => String c u
       end).
    by rewrite IH.
Qed.

Lemma lstrip_head (s : string) :
  Text.lstrip s = EmptyString ∨
  ∃ c t, Text.lstrip s = String c t ∧ Text.is_space c = false.
Proof.
  induction s as [|c s IH]; cbn; [by left|].
  destruct (Text.is_space c) eqn:E; [exact IH|]. right. by exists c, s.
Qed.

Lemma rstrip_keeps_head (c : ascii) (t : string) :
  Text.is_space c = false → ∃ u, Text.rstrip (String c t) = String c u.
Proof.
  intros E. cbn. destruct (Text.rstrip t); [rewrite E|]; eauto.
Qed.

Lemma strip_idem (s : string) : Text.strip (Text.strip s) = Text.strip s.
Proof.
  unfold Text.strip.
  destruct (lstrip_head s) as [->|(c & t & -> & E)]; [reflexivity|].
  destruct (rstrip_keeps_head c t E) as [u Hu]. rewrite Hu.
  cbn [Text.lstrip]. rewrite E, <- Hu. apply rstrip_idem.
Qed.

Lemma lower_strip_idem (s : string) :
  Text.lower (Text.strip (Text.lower (Text.strip s))) = Text.lower (Text.strip s).
Proof. by rewrite strip_lower, strip_idem, lower_idem. Qed.

(** ** The result monad and frames *)

Lemma bind_Ok {A B} (m : result A) (k : A → result B) (b : B) :
  bind m k = Ok b ↔ ∃ a, m = Ok a ∧ k a = Ok b.
Proof.
  split.
  - destruct m; cbn; [eauto|discriminate|discriminate].
  - by intros (a & -> & ?).
Qed.


Lemma getcol_insert (r : row) (c : string) (v : cell) : getcol (<[c := v]> r) c = v.
Proof. unfold getcol. by rewrite lookup_insert_eq. Qed.

Lemma getcol_insert_ne (r : row) (c c' : string) (v : cell) :
  c ≠ c' → getcol (<[c := v]> r) c' = getcol r c'.
Proof. intros H. unfold getcol. by rewrite lookup_insert_ne. Qed.

Lemma select_columns (df d : DataFrame) (cols : list string) :
  select df cols = Ok d → columns d = cols ∧ length (rows d) = length (rows df).
Proof.
  unfold select. destruct (has_columns df cols); [|discriminate].
  intros [= <-]. cbn. by rewrite length_map.
Qed.

Lemma assign_present_columns (c : string) (f : row → cell) (df : DataFrame) :
  c ∈ columns df → columns (assign c f df) = columns df.
Proof. intros H. unfold assign. cbn. by rewrite bool_decide_eq_true_2. Qed.

Lemma assign_columns_fold (g : string → row → cell) (cols : list string) (df : DataFrame) :
  Forall (fun c => c ∈ columns df) cols →
  columns (foldl (fun df col => assign col (g col) df) df cols) = columns df.
Proof.
  revert df. induction cols as [|c cols IH]; intros df H; cbn [foldl]; [done|].
  apply Forall_cons in H as [Hc H].
  rewrite IH; rewrite assign_present_columns; done.
Qed.

Lemma assign_rows_fold_length (g : string → row → cell) (cols : list string) (df : DataFrame) :
  length (rows (foldl (fun df col => assign col (g col) df) df cols)) = length (rows df).
Proof.
  revert df. induction cols as [|c cols IH]; intros df; cbn [foldl]; [done|].
  rewrite IH. cbn. by rewrite length_map.
Qed.

(** ** The fixture check of the consolidated report *)

Lemma preprocess_columns (P : Conversions) (sheet pre : DataFrame) :
  preprocess_consolidated_payment_report P sheet = Ok pre → columns pre = keep_cols.
Proof.
  unfold preprocess_consolidated_payment_report.
  intros (d & Hd & Hpre)%bind_Ok.
  apply select_columns in Hd as [Hd _].
  assert (Hin : ∀ c, c ∈ keep_cols → c ∈ columns (where_ (fun r =>
            negb (Text.contains "total"
                    (Text.lower (astype_str P (getcol r "Location"))))) (dropna_all d))).
  { intros c Hc. cbn [columns dropna_all where_]. by rewrite Hd. }
  injection Hpre as <-. cbn [foldl].
  repeat first [ exact Hd
               | apply Hin; unfold keep_cols; set_solver
               | rewrite assign_present_columns ].
Qed.

Lemma filter_all_true {A} (p : A → bool) (l : list A) :
  Forall (fun a => p a = true) l → List.filter p l = l.
Proof.
  induction 1 as [|a l Ha _ IH]; cbn; [done|]. by rewrite Ha, IH.
Qed.

Lemma date_roundtrip (P : Conversions) (d : Z) :
  (timestamp_day_min ≤ d ≤ timestamp_day_max)%Z →
  date_of (to_datetime P (Day d)) = Day d.
Proof.
  intros [H1 H2]. cbn.
  rewrite (proj2 (Z.leb_le _ _) H1), (proj2 (Z.leb_le _ _) H2). cbn.
  by rewrite Z.div_mul.
Qed.

Lemma event_not_kept : "Event" ∉ keep_cols.
Proof. apply (bool_decide_eq_false_1 _). vm_compute. reflexivity. Qed.

Lemma event_date_not_kept : "EventDate" ∉ keep_cols ++ ["Event"].
Proof. apply (bool_decide_eq_false_1 _). vm_compute. reflexivity. Qed.

Lemma preprocess_never_stops (P : Conversions) (sheet : DataFrame) (h : halt) :
  preprocess_consolidated_payment_report P sheet ≠ Stop h.
Proof.
  unfold preprocess_consolidated_payment_report, select.
  destruct (has_columns _ _); cbn; discriminate.
Qed.

Lemma with_fixture_columns_spec (P : Conversions) (ev : string) (d : Z) (pre : DataFrame) :
  (timestamp_day_min ≤ d ≤ timestamp_day_max)%Z →
  columns pre = keep_cols →
  let df := with_fixture_columns P ev d pre in
  columns df = keep_cols ++ ["Event"; "EventDate"] ∧
  length (rows df) = length (rows pre) ∧
  Forall (fun r => match_mask ev d r = true) (rows df).
Proof.
  intros Hd Hcols. unfold with_fixture_columns.
  rewrite (bool_decide_eq_false_2 ("Event" ∈ columns pre))
    by (rewrite Hcols; exact event_not_kept).
  set (df1 := assign "Event" _ pre).
  assert (Hc1 : columns df1 = keep_cols ++ ["Event"]).
  { subst df1. unfold assign. cbn [columns].
    rewrite bool_decide_eq_false_2 by (rewrite Hcols; exact event_not_kept).
    by rewrite Hcols. }
  rewrite (bool_decide_eq_false_2 ("EventDate" ∈ columns df1))
    by (rewrite Hc1; exact event_date_not_kept).
  set (df2 := assign "EventDate" _ df1).
  assert (Hc2 : columns df2 = keep_cols ++ ["Event"; "EventDate"]).
  { subst df2. unfold assign at 1. cbn [columns].
    rewrite bool_decide_eq_false_2 by (rewrite Hc1; exact event_date_not_kept).
    rewrite Hc1. by rewrite <- app_assoc. }
  cbv zeta. split; [|split].
  - repeat first [ exact Hc2
                 | rewrite Hc2; unfold keep_cols; clear; set_solver
                 | rewrite assign_present_columns ].
  - subst df2 df1. cbn [rows assign]. by rewrite !length_map.
  - subst df2 df1. cbn [rows assign]. rewrite !Forall_map.
    apply Forall_forall. intros r _. cbn beta. unfold match_mask.
    rewrite getcol_insert.
    rewrite (getcol_insert_ne _ "EventDate" "Event") by discriminate.
    rewrite getcol_insert.
    rewrite (getcol_insert_ne _ "Event" "EventDate") by discriminate.
    rewrite !getcol_insert.
    rewrite (getcol_insert_ne _ "EventDate" "Event") by discriminate.
    rewrite getcol_insert.
    rewrite (date_roundtrip P d Hd).
    unfold lower_strip, astype_str, selected_event_lower.
    rewrite lower_strip_idem.
    by rewrite !bool_decide_eq_true_2.
Qed.

Lemma fixture_check_passes (P : Conversions) (ev : string) (d : Z) (file pre : DataFrame) :
  (timestamp_day_min ≤ d ≤ timestamp_day_max)%Z →
  preprocess_consolidated_payment_report P file = Ok pre →
  ∃ df, consolidated_for_fixture P ev d file = Ok df ∧
        length (rows df) = length (rows pre) ∧
        Forall (fun r => getcol r "Event" = Str (selected_event_lower ev) ∧
                         getcol r "EventDate" = Day d) (rows df).
Proof.
  intros Hd Hpre. pose proof (preprocess_columns _ _ _ Hpre) as Hcols.
  destruct (with_fixture_columns_spec P ev d pre Hd Hcols) as (Hc & Hlen & Hall).
  unfold consolidated_for_fixture. rewrite Hpre. cbn [bind]. cbv zeta.
  set (df := with_fixture_columns P ev d pre) in *.
  rewrite (filter_all_true _ _ Hall), Nat.eqb_refl. cbn [negb].
  unfold standardize_location. cbn [columns where_].
  rewrite bool_decide_eq_true_2 by (rewrite Hc; unfold keep_cols; clear; set_solver).
  cbn [bind]. unfold standardize_text.
  rewrite bool_decide_eq_true_2
    by (repeat first [ progress cbn [columns where_]
                     | rewrite Hc; unfold keep_cols; clear; set_solver
                     | rewrite assign_present_columns ]).
  eexists. split; [reflexivity|].
  cbn [rows assign where_]. rewrite !length_map, (filter_all_true _ _ Hall).
  split; [exact Hlen|].
  rewrite !Forall_map. eapply Forall_impl; [exact Hall|].
  intros r Hr. cbn beta. unfold match_mask in Hr.
  apply andb_prop in Hr as [He Hdate].
  apply bool_decide_eq_true_1 in He. apply bool_decide_eq_true_1 in Hdate.
  rewrite getcol_insert.
  rewrite !(getcol_insert_ne _ "Location" "Event") by discriminate.
  rewrite (getcol_insert_ne _ "Event" "EventDate") by discriminate.
  rewrite !(getcol_insert_ne _ "Location" "EventDate") by discriminate.
  rewrite He. split; [|exact Hdate].
  unfold lower_strip, astype_str, selected_event_lower. by rewrite lower_strip_idem.
Qed.

(** C10: for every uploaded report and every selection whose date is a
    Timestamp date, preprocessing leaves exactly the Location column and the
    four amount columns, so Event and EventDate are absent and come from the
    selection; the fixture check then never stops the run, and whenever
    preprocessing succeeds every row of the report carries the selected event
    and date. *)
Theorem fixture_check_always_passes
  (P : Conversions) (ev : string) (d : Z) (file : DataFrame) :
  (timestamp_day_min ≤ d ≤ timestamp_day_max)%Z →
  (∀ matched total,
     consolidated_for_fixture P ev d file ≠ Stop (FixtureMismatch matched total)) ∧
  (∀ pre, preprocess_consolidated_payment_report P file = Ok pre →
     columns pre = keep_cols ∧ ("Event" ∉ columns pre) ∧ ("EventDate" ∉ columns pre) ∧
     ∃ df, consolidated_for_fixture P ev d file = Ok df ∧
           length (rows df) = length (rows pre) ∧
           Forall (fun r => getcol r "Event" = Str (selected_event_lower ev) ∧
                            getcol r "EventDate" = Day d) (rows df)).
Proof.
  intros Hd. split.
  - intros m t.
    destruct (preprocess_consolidated_payment_report P file) as [pre|h|e] eqn:Hpre.
    + destruct (fixture_check_passes P ev d file pre Hd Hpre) as (df & -> & _).
      discriminate.
    + by apply preprocess_never_stops in Hpre.
    + unfold consolidated_for_fixture. rewrite Hpre. discriminate.
  - intros pre Hpre. pose proof (preprocess_columns _ _ _ Hpre) as Hcols.
    split; [exact Hcols|]. rewrite Hcols.
    split; [exact event_not_kept|].
    split; [|by apply fixture_check_passes].
    intros H. apply event_date_not_kept. apply elem_of_app. by left.
Qed.

Lemma fixture_check_always_passes_witness :
  (timestamp_day_min ≤ 19967 ≤ timestamp_day_max)%Z ∧
  consolidated_for_fixture sample_conversions "Arsenal v Chelsea " 19967
    (sample_report "£500.00") ≠ Stop (FixtureMismatch 0 1).
Proof.
  assert (H : (timestamp_day_min ≤ 19967 ≤ timestamp_day_max)%Z)
    by (unfold timestamp_day_min, timestamp_day_max; lia).
  split; [exact H|].
  exact (proj1 (fixture_check_always_passes sample_conversions "Arsenal v Chelsea "
                  19967 (sample_report "£500.00") H) 0 1).
Defined.


(** ** The consistency check *)




(** ** Lists: keeping first occurrences, sorting *)

Lemma filter_elem {A} (p : A → bool) (l : list A) (x : A) :
  x ∈ List.filter p l ↔ x ∈ l ∧ p x = true.
Proof. by rewrite !list_elem_of_In, filter_In. Qed.

Lemma filter_NoDup {A} (p : A → bool) (l : list A) : NoDup l → NoDup (List.filter p l).
Proof.
  induction 1 as [|x l Hx _ IH]; cbn; [constructor|].
  destruct (p x); [|exact IH]. constructor; [|exact IH].
  rewrite filter_elem. by intros [? _].
Qed.

Lemma keep_first_elem {A} `{EqDecision A} (l : list A) (x : A) :
  x ∈ keep_first l ↔ x ∈ l.
Proof.
  induction l as [|a l IH]; cbn; [done|].
  rewrite !elem_of_cons, filter_elem, IH, negb_true_iff, bool_decide_eq_false.
  destruct (decide (x = a)) as [->|Hne]; [by split; [left|left]|].
  split; [intros [?|[? _]]; [done|by right]|intros [?|?]; [done|by right]].
Qed.

Lemma keep_first_NoDup {A} `{EqDecision A} (l : list A) : NoDup (keep_first l).
Proof.
  induction l as [|a l IH]; cbn; constructor.
  - rewrite filter_elem, negb_true_iff, bool_decide_eq_false. by intros [_ ?].
  - by apply filter_NoDup.
Qed.

Lemma insert_by_perm {A} (leb : A → A → bool) (x : A) (l : list A) :
  insert_by leb x l ≡ₚ x :: l.
Proof.
  induction l as [|y l IH]; cbn; [done|].
  destruct (leb x y); [done|]. rewrite IH. apply perm_swap.
Qed.

Lemma sort_by_perm {A} (leb : A → A → bool) (l : list A) : sort_by leb l ≡ₚ l.
Proof.
  induction l as [|x l IH]; cbn; [done|].
  unfold sort_by in IH. by rewrite insert_by_perm, IH.
Qed.

(** ** Groups *)




Lemma filter_filter {A} (p q : A → bool) (l : list A) :
  List.filter p (List.filter q l) = List.filter (fun x => q x && p x) l.
Proof.
  induction l as [|x l IH]; cbn; [done|].
  destruct (q x); cbn; [destruct (p x)|]; by rewrite IH.
Qed.

Lemma filter_ext_in {A} (p q : A → bool) (l : list A) :
  (∀ x, x ∈ l → p x = q x) → List.filter p l = List.filter q l.
Proof.
  induction l as [|x l IH]; intros H; cbn; [done|].
  rewrite (H x) by (by left). rewrite IH; [done|].
  intros y Hy. apply H. by right.
Qed.


(** ** Box totals *)







(** ** Lump sums *)

Lemma traverse_map {A B} (f : A → result B) (g : A → B) (l : list A) :
  (∀ a, a ∈ l → f a = Ok (g a)) → traverse f l = Ok (map g l).
Proof.
  induction l as [|a l IH]; intros H; cbn; [done|].
  rewrite (H a) by (by left). cbn. rewrite IH; [done|].
  intros b Hb. apply H. by right.
Qed.

Lemma indexed_from_app {A} (n : nat) (l1 l2 : list A) :
  indexed_from n (l1 ++ l2) = indexed_from n l1 ++ indexed_from (n + length l1) l2.
Proof.
  revert n. induction l1 as [|x l1 IH]; intros n; cbn.
  - by rewrite Nat.add_0_r.
  - rewrite IH. do 3 f_equal. lia.
Qed.

Lemma indexed_from_elem {A} (n : nat) (l : list A) (j : nat) (x : A) :
  (j, x) ∈ indexed_from n l ↔ n ≤ j ∧ l !! (j - n) = Some x.
Proof.
  revert n. induction l as [|y l IH]; intros n; cbn.
  - rewrite elem_of_nil. split; [done|]. by intros [_ ?].
  - rewrite elem_of_cons, IH. split.
    + intros [[= -> ->]|[Hle Hx]].
      * split; [lia|]. by rewrite Nat.sub_diag.
      * split; [lia|]. by replace (j - n) with (S (j - S n)) by lia.
    + intros [Hle Hx]. destruct (decide (j = n)) as [->|Hne].
      * left. rewrite Nat.sub_diag in Hx. cbn in Hx. congruence.
      * right. split; [lia|]. by replace (j - n) with (S (j - S n)) in Hx by lia.
Qed.

Lemma find_skip {A} (p : A → bool) (l1 l2 : list A) :
  (∀ x, x ∈ l1 → p x = false) → List.find p (l1 ++ l2) = List.find p l2.
Proof.
  induction l1 as [|x l1 IH]; intros H; cbn; [done|].
  rewrite (H x) by (by left). apply IH. intros y Hy. apply H. by right.
Qed.

Lemma filter_nil_iff {A} (p : A → bool) (l : list A) :
  List.filter p l = [] ↔ ∀ x, x ∈ l → p x = false.
Proof.
  induction l as [|x l IH]; cbn.
  - split; [intros _ y Hy; by apply elem_of_nil in Hy|done].
  - destruct (p x) eqn:E.
    + split; [discriminate|]. intros H. specialize (H x ltac:(by left)). congruence.
    + rewrite IH. split.
      * intros H y [->|Hy]%elem_of_cons; [done|by apply H].
      * intros H y Hy. apply H. by right.
Qed.

Lemma clear_lumpsums_cons (cols : list string) (first : nat * row) (rest : list (nat * row)) :
  "Total" ∈ cols →
  clear_lumpsums cols (first :: rest)
  = Ok (first :: map (fun ir => (ir.1, set_total_zero ir.2)) rest).
Proof.
  intros H. unfold clear_lumpsums. destruct rest; [done|].
  by rewrite bool_decide_eq_true_2.
Qed.

Lemma lumpsum_row (cols keys : list string) (rs : list row) (i : nat) (r : row) :
  "Total" ∈ cols → rs !! i = Some r →
  ∃ g, clear_lumpsums cols
         (List.filter (fun jr : nat * row => bool_decide (key_of keys jr.2 = key_of keys r))
                      (indexed_from 0 rs)) = Ok g ∧
       snd <$> List.find (fun jr : nat * row => jr.1 =? i) g
       = Some (if bool_decide (key_of keys r ∈ map (key_of keys) (take i rs))
               then set_total_zero r else r).
Proof.
  intros Hcols Hr.
  pose proof (lookup_lt_Some _ _ _ Hr) as Hi.
  assert (Hsplit : indexed_from 0 rs
                   = indexed_from 0 (take i rs) ++ (i, r) :: indexed_from (S i) (drop (S i) rs)).
  { rewrite <- (take_drop_middle rs i r Hr) at 1.
    rewrite indexed_from_app, length_take, Nat.min_l by lia. done. }
  rewrite Hsplit, List.filter_app. cbn [List.filter]. cbn [snd].
  rewrite (bool_decide_eq_true_2 (key_of keys r = key_of keys r)) by done.
  set (p := fun jr : nat * row => bool_decide (key_of keys jr.2 = key_of keys r)).
  assert (Hlt : ∀ jr, jr ∈ List.filter p (indexed_from 0 (take i rs)) → (jr.1 =? i) = false).
  { intros [j x] [Hj _]%filter_elem. apply indexed_from_elem in Hj as [_ Hj].
    apply lookup_lt_Some in Hj. rewrite length_take in Hj. apply Nat.eqb_neq. cbn. lia. }
  destruct (List.filter p (indexed_from 0 (take i rs))) as [|h G1] eqn:EG1.
  - cbn [app]. rewrite clear_lumpsums_cons by done. eexists. split; [done|].
    cbn [List.find fst]. rewrite Nat.eqb_refl. cbn.
    rewrite bool_decide_eq_false_2; [done|].
    intros (x & Hkx & Hx)%list_elem_of_fmap.
    apply list_elem_of_lookup_1 in Hx as [j Hx].
    pose proof (proj1 (filter_nil_iff _ _) EG1 (j, x)) as Hnil.
    unfold p in Hnil. cbn in Hnil. apply bool_decide_eq_false in Hnil; [by apply Hnil|].
    apply indexed_from_elem. split; [lia|]. by rewrite Nat.sub_0_r.
  - cbn [app]. rewrite clear_lumpsums_cons by done. eexists. split; [done|].
    cbn [List.find]. rewrite (Hlt h) by (by left).
    rewrite map_app. rewrite find_skip.
    + cbn [map List.find fst snd]. rewrite Nat.eqb_refl. cbn.
      rewrite bool_decide_eq_true_2; [done|].
      assert (Hh : h ∈ List.filter p (indexed_from 0 (take i rs))) by (rewrite EG1; by left).
      destruct h as [j x]. apply filter_elem in Hh as [Hj Hp].
      apply indexed_from_elem in Hj as [_ Hj]. rewrite Nat.sub_0_r in Hj.
      unfold p in Hp. cbn in Hp. apply bool_decide_eq_true_1 in Hp.
      apply list_elem_of_fmap. exists x. split; [done|].
      by eapply list_elem_of_lookup_2.
    + intros y (jr & -> & Hjr)%list_elem_of_fmap. cbn [fst]. apply Hlt. by right.
Qed.

Lemma omap_id_map {A B} (g : A → option B) (l : list A) : omap id (map g l) = omap g l.
Proof. induction l as [|a l IH]; cbn; [done|]. destruct (g a); cbn; by rewrite IH. Qed.

Lemma groupby_apply_clear_lumpsums (df : DataFrame) (keys : list string) :
  has_columns df keys = true → "Total" ∈ columns df →
  groupby_apply (clear_lumpsums (columns df)) df keys
  = Ok (mkDF (columns df) (zero_after_first keys (rows df))).
Proof.
  intros Hkeys Htotal. unfold groupby_apply, zero_after_first. rewrite Hkeys.
  erewrite traverse_map; [cbn [bind]; by rewrite omap_id_map|].
  intros [i r] [_ Hr]%indexed_from_elem. rewrite Nat.sub_0_r in Hr.
  cbv zeta. cbn [fst snd].
  destruct (key_has_na (key_of keys r)); [done|].
  destruct (lumpsum_row (columns df) keys (rows df) i r Htotal Hr) as (g & Hg & Hfind).
  rewrite Hg. cbn [bind]. by rewrite Hfind.
Qed.

Lemma sort_values_rows (df sorted : DataFrame) (keys : list string) :
  sort_values df keys = Ok sorted →
  columns sorted = columns df ∧ rows sorted ≡ₚ rows df.
Proof.
  unfold sort_values. destruct (has_columns df keys); [|discriminate].
  intros [= <-]. split; [done|]. apply sort_by_perm.
Qed.

Lemma lumpsum_deduping_rows (df : DataFrame) (keys : list string) :
  has_columns df (lumpsum_keys df keys) = true →
  "Total" ∈ columns df →
  ∃ sorted,
    sort_values df (lumpsum_keys df keys) = Ok sorted ∧
    rows sorted ≡ₚ rows df ∧
    lumpsum_deduping df keys
    = Ok (mkDF (columns df)
               (keep_first (zero_after_first (lumpsum_keys df keys) (rows sorted)))).
Proof.
  intros Hkeys Htotal. unfold lumpsum_deduping.
  destruct (sort_values df (lumpsum_keys df keys)) as [sorted| |] eqn:Hsort;
    try (unfold sort_values in Hsort; rewrite Hkeys in Hsort; discriminate).
  exists sorted. pose proof (sort_values_rows _ _ _ Hsort) as [Hc Hp].
  split; [done|]. split; [done|]. cbn [bind].
  rewrite groupby_apply_clear_lumpsums.
  - cbn [bind]. unfold drop_duplicates. cbn [columns rows]. by rewrite Hc.
  - unfold has_columns in *. by rewrite Hc.
  - by rewrite Hc.
Qed.



(** ** Totals before and after the lump-sum step *)

Lemma nonneg_total_amount (r : row) :
  nonneg_total r → (0 <= amount (getcol r "Total"))%Qc.
Proof. by intros (x & -> & Hx). Qed.

Lemma set_total_zero_nonneg (r : row) : nonneg_total (set_total_zero r).
Proof.
  exists 0%Qc. unfold set_total_zero. rewrite getcol_insert. split; [done|].
  apply Qcle_refl.
Qed.

Lemma set_total_zero_amount (r : row) :
  nonneg_total r →
  (amount (getcol (set_total_zero r) "Total") <= amount (getcol r "Total"))%Qc.
Proof.
  intros H. unfold set_total_zero. rewrite getcol_insert. by apply nonneg_total_amount.
Qed.

Lemma sum_skipna_totals (rs : list row) :
  Forall nonneg_total rs →
  sum_skipna (map (fun r => getcol r "Total") rs) = Ok (total_amount rs).
Proof.
  induction 1 as [|r rs (x & Hx & _) _ IH]; cbn; [done|].
  rewrite Hx, IH. done.
Qed.

Lemma total_amount_perm (l l' : list row) : l ≡ₚ l' → total_amount l = total_amount l'.
Proof.
  induction 1 as [|r l l' _ IH|r r' l|l l' l'' _ IH1 _ IH2]; cbn.
  - done.
  - by rewrite IH.
  - ring.
  - by rewrite IH1.
Qed.

Lemma total_amount_drop (x s s' : Qc) : (0 <= x)%Qc → (s' <= s)%Qc → (s' <= x + s)%Qc.
Proof.
  intros Hx Hs. rewrite <- (Qcplus_0_l s'). by apply Qcplus_le_compat.
Qed.

Lemma total_amount_filter (p : row → bool) (l : list row) :
  Forall nonneg_total l →
  Forall nonneg_total (List.filter p l) ∧
  (total_amount (List.filter p l) <= total_amount l)%Qc.
Proof.
  induction 1 as [|r l Hr _ [IH1 IH2]]; cbn; [split; [done|apply Qcle_refl]|].
  destruct (p r); cbn.
  - split; [by constructor|]. apply Qcplus_le_compat; [apply Qcle_refl|done].
  - split; [done|]. apply total_amount_drop; [by apply nonneg_total_amount|done].
Qed.

Lemma total_amount_keep_first (l : list row) :
  Forall nonneg_total l →
  Forall nonneg_total (keep_first l) ∧
  (total_amount (keep_first l) <= total_amount l)%Qc.
Proof.
  induction 1 as [|r l Hr _ [IH1 IH2]]; cbn; [split; [done|apply Qcle_refl]|].
  destruct (total_amount_filter (fun y => negb (bool_decide (y = r))) _ IH1) as [H1 H2].
  split; [by constructor|].
  apply Qcplus_le_compat; [apply Qcle_refl|]. by eapply Qcle_trans.
Qed.

Lemma total_amount_omap (h : nat * row → option row) (n : nat) (l : list row) :
  (∀ i r, nonneg_total r →
          match h (i, r) with
          | Some r' => nonneg_total r' ∧
                       (amount (getcol r' "Total") <= amount (getcol r "Total"))%Qc
          | None => True
          end) →
  Forall nonneg_total l →
  Forall nonneg_total (omap h (indexed_from n l)) ∧
  (total_amount (omap h (indexed_from n l)) <= total_amount l)%Qc.
Proof.
  intros Hh Hl. revert n.
  induction Hl as [|r l Hr _ IH]; intros n; cbn; [split; [done|apply Qcle_refl]|].
  destruct (IH (S n)) as [IH1 IH2]. specialize (Hh n r Hr).
  destruct (h (n, r)) as [r'|]; cbn.
  - destruct Hh as [Hr' Hle]. split; [by constructor|]. by apply Qcplus_le_compat.
  - split; [done|]. apply total_amount_drop; [by apply nonneg_total_amount|done].
Qed.

Lemma total_amount_zero_after_first (keys : list string) (rs : list row) :
  Forall nonneg_total rs →
  Forall nonneg_total (zero_after_first keys rs) ∧
  (total_amount (zero_after_first keys rs) <= total_amount rs)%Qc.
Proof.
  intros H. unfold zero_after_first. apply total_amount_omap; [|done].
  intros i r Hr. cbn [fst snd]. destruct (key_has_na _); [done|].
  destruct (bool_decide _).
  - split; [apply set_total_zero_nonneg|by apply set_total_zero_amount].
  - split; [done|apply Qcle_refl].
Qed.

(** C3, as the code has it: when every Total of the input is a non-negative
    amount, lump-sum de-duplication returns a frame whose Total column sums
    to at most the sum of the Total column of the input. *)
Theorem lumpsum_never_increases_total (df : DataFrame) (keys : list string) :
  has_columns df (lumpsum_keys df keys) = true →
  "Total" ∈ columns df →
  Forall nonneg_total (rows df) →
  ∃ out before after,
    lumpsum_deduping df keys = Ok out ∧
    column_sum df "Total" = Ok before ∧
    column_sum out "Total" = Ok after ∧
    (after <= before)%Qc.
Proof.
  intros Hkeys Htotal Hnn.
  destruct (lumpsum_deduping_rows df keys Hkeys Htotal)
    as (sorted & _ & Hperm & Hout).
  assert (Hsorted : Forall nonneg_total (rows sorted)) by (by rewrite Hperm).
  destruct (total_amount_zero_after_first (lumpsum_keys df keys) _ Hsorted) as [Hz1 Hz2].
  destruct (total_amount_keep_first _ Hz1) as [Hk1 Hk2].
  eexists _, _, _. split; [exact Hout|].
  unfold column_sum. cbn [columns rows]. rewrite bool_decide_eq_true_2 by done.
  split; [by apply sum_skipna_totals|]. split; [by apply sum_skipna_totals|].
  rewrite <- (total_amount_perm _ _ Hperm).
  eapply Qcle_trans; [exact Hk2|exact Hz2].
Qed.

Lemma lumpsum_never_increases_total_witness :
  ∃ out after,
    lumpsum_deduping repeated_lump merge_keys = Ok out ∧
    column_sum repeated_lump "Total" = Ok (qc 110 1) ∧
    column_sum out "Total" = Ok after ∧
    (after <= qc 110 1)%Qc.
Proof.
  destruct (lumpsum_never_increases_total repeated_lump merge_keys)
    as (out & before & after & Hout & Hbefore & Hafter & Hle).
  - vm_compute. reflexivity.
  - apply (bool_decide_eq_true_1 _). vm_compute. reflexivity.
  - repeat constructor; eexists; (split; [vm_compute; reflexivity|]);
      apply Qc_leb_le; vm_compute; reflexivity.
  - exists out, after.
    assert (Hb : before = qc 110 1).
    { vm_compute in Hbefore. injection Hbefore as <-. apply Qc_is_canon. reflexivity. }
    rewrite Hb in Hbefore, Hle. done.
Defined.

(** C3 as worded, for every input table, fails on a refund: an order of 3.00
    followed under the same key by a line of -5.00 sums to -2.00 before the
    step and to 3.00 after it. *)
Lemma lumpsum_refund_increases_total :
  ∃ out,
    lumpsum_deduping refund_lines merge_keys = Ok out ∧
    column_sum refund_lines "Total" = Ok (qc (-2) 1) ∧
    column_sum out "Total" = Ok (qc 3 1) ∧
    ¬ (qc 3 1 <= qc (-2) 1)%Qc.
Proof.
  eexists. split; [vm_compute; reflexivity|].
  split; [vm_compute; reflexivity|].
  split; [vm_compute; reflexivity|].
  intros H. apply Qc_leb_le in H. vm_compute in H. discriminate.
Qed.

(** ** Event ids *)

Lemma lookup_key_dated (P : Conversions) (r : row) (c : cell) :
  is_Some (r !! "Location") → is_Some (r !! "Event") →
  ∃ k, lookup_key P (<["Event_Date" := to_datetime_dayfirst P c]> r) = Ok k.
Proof.
  intros [loc Hloc] [evt Hevt]. unfold lookup_key, item.
  rewrite (lookup_insert_ne _ "Event_Date" "Location") by discriminate.
  rewrite (lookup_insert_ne _ "Event_Date" "Event") by discriminate.
  rewrite Hloc, Hevt, lookup_insert_eq. cbn [bind].
  unfold to_datetime_dayfirst.
  destruct c; cbn [from_option];
    repeat match goal with
           | |- context [from_option Stamp NA ?o] => destruct o; cbn [from_option]
           end; cbn [bind]; eauto.
Qed.



(** ** The API menu table *)

Lemma keep_first_by_NoDup {A K} `{EqDecision K} (key : A → K) (l : list A) :
  NoDup (map key (keep_first_by key l)).
Proof.
  induction l as [|x l IH]; cbn; constructor.
  - intros (y & Hy & [_ Hne]%filter_elem)%list_elem_of_fmap.
    apply negb_true_iff, bool_decide_eq_false in Hne. by apply Hne.
  - clear -IH. induction (keep_first_by key l) as [|y l' IH']; cbn; [constructor|].
    apply NoDup_cons in IH as [Hy IH].
    destruct (negb _); cbn; [|by apply IH'].
    constructor; [|by apply IH'].
    intros (z & Hz & [Hin _]%filter_elem)%list_elem_of_fmap.
    apply Hy, list_elem_of_fmap. eauto.
Qed.

(** C7, as the code has it: after the de-duplication of [process_api_menu]
    the API menu lines are uniquely keyed by event id, location, event, guest
    name, guest email, order type and menu item: two lines at different
    places of the menu table never agree on all seven fields. *)
Theorem api_menu_lines_uniquely_keyed (P : Conversions) (df_api : list ApiRow) :
  let df_menu := (process_api_menu P df_api).1 in
  NoDup (map (key_of menu_key) (rows df_menu)) ∧
  ∀ i j r1 r2,
    rows df_menu !! i = Some r1 → rows df_menu !! j = Some r2 →
    key_of menu_key r1 = key_of menu_key r2 → i = j.
Proof.
  cbv zeta.
  assert (H : NoDup (map (key_of menu_key) (rows (process_api_menu P df_api).1))).
  { unfold process_api_menu. cbn [fst].
    destruct (flat_map _ df_api) as [|m menu]; [constructor|].
    cbn [rows]. apply keep_first_by_NoDup. }
  split; [exact H|].
  intros i j r1 r2 H1 H2 Hk.
  eapply NoDup_lookup; [exact H| |].
  - rewrite list_lookup_fmap, H1. reflexivity.
  - rewrite list_lookup_fmap, H2, Hk. reflexivity.
Qed.

(** C7 as worded fails on the merged table. The join is on six fields, the
    menu item not among them: the two food orders of one guest, placed at
    different times, both take the guest's one food line of the API and stay
    two merged rows that agree on all seven fields, and the guest's
    enhancement order matches two API lines. *)
Lemma merged_lines_share_seven_fields :
  ∃ manual out,
    resolve_event_ids sample_conversions sample_manual
      (process_api_menu sample_conversions sample_api).2 = Ok manual ∧
    merged_orders manual
      (menu_with_numeric_ids sample_conversions
         (process_api_menu sample_conversions sample_api).1) = Ok out ∧
    ¬ NoDup (map (key_of menu_key) (rows out)) ∧
    length (List.filter
              (fun r => bool_decide (getcol r "Order_type" = Str "Enhancement"))
              (rows manual)) = 1 ∧
    length (List.filter
              (fun r => bool_decide (getcol r "Order_type" = Str "Enhancement"))
              (rows out)) = 2.
Proof.
  eexists _, _. split; [vm_compute; reflexivity|].
  split; [vm_compute; reflexivity|].
  split; [|split; vm_compute; reflexivity].
  apply (bool_decide_eq_false_1 _). vm_compute. reflexivity.
Qed.

(** ** The per-event fetch *)




(** ** More on the payment status *)

Lemma float_match (t a : float) :
  float_pos a && float_eqb t a = true →
  ∃ x y, t = fin x ∧ a = fin y ∧ x = y ∧ (0 < y)%Qc.
Proof.
  intros [Hpos Heq]%andb_prop.
  destruct t as [|x], a as [|y]; try discriminate.
  exists x, y. cbn in *. apply Qc_eqb_eq in Heq. apply Qc_ltb_lt in Hpos. done.
Qed.

(** X1: a status that is not empty names a payment method whose amount, rounded
    to two decimals, is strictly positive and equal to the rounded box
    total. *)
Theorem payment_status_sound (r : row) (status : string) :
  assign_payment_status r = Ok status →
  status ≠ EmptyString →
  ∃ column total amount,
    (column, status) ∈ payment_methods ∧
    as_float (get r "BoxTotal" (Num 0)) = Ok (fin total) ∧
    as_float (get r column (Num 0)) = Ok (fin amount) ∧
    round2 total = round2 amount ∧ (0 < round2 amount)%Qc.
Proof.
  unfold assign_payment_status.
  destruct (as_float (get r "BoxTotal" (Num 0))) as [t| |] eqn:Et; cbn [bind]; try discriminate.
  destruct (as_float (get r "Drawdown" (Num 0))) as [d| |] eqn:Ed; cbn [bind]; try discriminate.
  destruct (as_float (get r "Credit Card" (Num 0))) as [c| |] eqn:Ec; cbn [bind]; try discriminate.
  destruct (as_float (get r "Purchase orders" (Num 0))) as [p| |] eqn:Ep;
    cbn [bind]; try discriminate.
  destruct (as_float (get r "EFT" (Num 0))) as [e| |] eqn:Ee; cbn [bind]; try discriminate.
  assert (Hfin : ∀ column a label,
            (column, label) ∈ payment_methods →
            as_float (get r column (Num 0)) = Ok a →
            float_pos (float_round2 a) && float_eqb (float_round2 t) (float_round2 a) = true →
            ∃ column total amount,
              (column, label) ∈ payment_methods ∧ Ok t = Ok (fin total) ∧
              as_float (get r column (Num 0)) = Ok (fin amount) ∧
              round2 total = round2 amount ∧ (0 < round2 amount)%Qc).
  { intros column a label Hin Ha (x & y & Hx & Hy & -> & Hpos)%float_match.
    destruct t as [|t'], a as [|a']; try discriminate.
    cbn in Hx, Hy. injection Hx as Hx. injection Hy as Hy.
    exists column, t', a'. rewrite Hx, Hy. done. }
  destruct (float_pos (float_round2 d) && _) eqn:Hd.
  { intros [= <-] _. apply (Hfin "Drawdown" d); [unfold payment_methods; set_solver|done..]. }
  destruct (float_pos (float_round2 c) && _) eqn:Hc.
  { intros [= <-] _. apply (Hfin "Credit Card" c); [unfold payment_methods; set_solver|done..]. }
  destruct (float_pos (float_round2 p) && _) eqn:Hp.
  { intros [= <-] _.
    apply (Hfin "Purchase orders" p); [unfold payment_methods; set_solver|done..]. }
  destruct (float_pos (float_round2 e) && _) eqn:He.
  { intros [= <-] _. apply (Hfin "EFT" e); [unfold payment_methods; set_solver|done..]. }
  intros [= <-] Hne. done.
Qed.

Lemma payment_status_sound_witness :
  ∃ column total amount,
    (column, "Credit Card") ∈ payment_methods ∧
    as_float (get (payment_row (Num (qc 100 1)) (Num 0) (Num (qc 100 1)) (Num 0) (Num 0))
                  "BoxTotal" (Num 0)) = Ok (fin total) ∧
    as_float (get (payment_row (Num (qc 100 1)) (Num 0) (Num (qc 100 1)) (Num 0) (Num 0))
                  column (Num 0)) = Ok (fin amount) ∧
    round2 total = round2 amount ∧ (0 < round2 amount)%Qc.
Proof.
  apply (payment_status_sound
           (payment_row (Num (qc 100 1)) (Num 0) (Num (qc 100 1)) (Num 0) (Num 0))
           "Credit Card").
  - vm_compute. reflexivity.
  - discriminate.
Defined.

(** ** Rounding whole pence *)

Lemma rint_comp (q q' : Q) : (q == q')%Q → rint q = rint q'.
Proof.
  intros H. unfold rint. rewrite (Qfloor_comp _ _ H).
  assert (Hc : (q - inject_Z (Qfloor q') ?= 1 # 2)%Q
               = (q' - inject_Z (Qfloor q') ?= 1 # 2)%Q).
  { apply Qcompare_comp; [by rewrite H|reflexivity]. }
  by rewrite Hc.
Qed.

Lemma rint_Z (n : Z) : rint (inject_Z n) = n.
Proof.
  unfold rint. rewrite Qfloor_Z.
  assert (H : (inject_Z n - inject_Z n ?= 1 # 2)%Q = Lt).
  { rewrite <- Qlt_alt. unfold Qlt, Qminus, Qplus, Qopp, inject_Z. cbn. lia. }
  by rewrite H.
Qed.

Lemma pence_scaled (n : Z) : (Qred (n # 100) * 100 == inject_Z n)%Q.
Proof.
  rewrite Qred_correct. unfold Qeq, inject_Z. cbn.
  rewrite ?Pos.mul_1_r, Z.mul_1_r. reflexivity.
Qed.

Lemma pence_unscaled (n : Z) : (inject_Z n / 100 == n # 100)%Q.
Proof.
  unfold Qeq, inject_Z, Qdiv, Qmult, Qinv. cbn. lia.
Qed.

Lemma round2_pence (n : Z) : round2 (qc n 100) = qc n 100.
Proof.
  unfold round2, qc. apply Qc_is_canon. cbn [this Q2Qc].
  rewrite (rint_comp _ _ (pence_scaled n)), rint_Z.
  etransitivity; [apply Qred_correct|].
  etransitivity; [apply pence_unscaled|]. symmetry. apply Qred_correct.
Qed.

Lemma qc_pence_pos (n : Z) : Qc_ltb 0 (qc n 100) = (0 <? n)%Z.
Proof.
  apply eq_true_iff_eq. rewrite Qc_ltb_lt, Z.ltb_lt.
  unfold Qclt, qc. cbn [this Q2Qc].
  rewrite (Qred_correct (n # 100)). change (Qred 0) with 0%Q.
  unfold Qlt. cbn. lia.
Qed.

Lemma qc_pence_eqb (n m : Z) : Qc_eqb (qc n 100) (qc m 100) = (n =? m)%Z.
Proof.
  apply eq_true_iff_eq. rewrite Z.eqb_eq. unfold Qc_eqb. rewrite Qeq_bool_iff.
  unfold qc. cbn [this Q2Qc].
  rewrite (Qred_correct (n # 100)), (Qred_correct (m # 100)).
  unfold Qeq. cbn. lia.
Qed.

(** X2: on amounts in whole pence rounding changes nothing: the status is the
    first method, in the order of the code, whose amount is positive and
    equal to the box total. *)
Theorem payment_status_on_pence (total drawdown credit po eft : Z) :
  assign_payment_status
    (payment_row (Num (qc total 100)) (Num (qc drawdown 100)) (Num (qc credit 100))
                 (Num (qc po 100)) (Num (qc eft 100)))
  = Ok (if (0 <? drawdown)%Z && (total =? drawdown)%Z then "Drawdown"
        else if (0 <? credit)%Z && (total =? credit)%Z then "Credit Card"
        else if (0 <? po)%Z && (total =? po)%Z then "Purchase Order"
        else if (0 <? eft)%Z && (total =? eft)%Z then "EFT"
        else EmptyString).
Proof.
  unfold assign_payment_status, payment_row, get.
  repeat (rewrite lookup_insert_eq || rewrite lookup_insert_ne by discriminate).
  cbn [default from_option id as_float bind float_round2 float_pos float_eqb].
  rewrite !round2_pence, !qc_pence_pos, !qc_pence_eqb.
  repeat match goal with
         | |- context [if ?b then _ else _] => destruct b; try reflexivity
         end.
Qed.

(** X3: every row that preprocessing keeps has a number in each of the four
    amount columns and a location that does not contain "total" in any
    letter case; preprocessing adds no row. *)
Theorem preprocessed_report_rows (P : Conversions) (sheet pre : DataFrame) :
  preprocess_consolidated_payment_report P sheet = Ok pre →
  Forall (fun r => Forall (fun c => ∃ x, getcol r c = Num x) amount_columns ∧
                   mentions_total P r = false) (rows pre) ∧
  length (rows pre) <= length (rows sheet).
Proof.
  unfold preprocess_consolidated_payment_report.
  intros (d & Hd & Hpre)%bind_Ok. injection Hpre as <-.
  apply select_columns in Hd as [_ Hlen].
  cbn [foldl rows assign where_ dropna_all columns]. split.
  - rewrite !Forall_map. apply Forall_forall. intros r [_ Hr]%filter_elem.
    apply negb_true_iff in Hr.
    cbn beta. split.
    + unfold amount_columns, currency_amount. repeat constructor; eexists.
      * rewrite !(getcol_insert_ne _ _ "Drawdown") by discriminate. apply getcol_insert.
      * rewrite !(getcol_insert_ne _ _ "Credit Card") by discriminate. apply getcol_insert.
      * rewrite !(getcol_insert_ne _ _ "Purchase orders") by discriminate.
        apply getcol_insert.
      * apply getcol_insert.
    + unfold mentions_total.
      rewrite !(getcol_insert_ne _ _ "Location") by discriminate. exact Hr.
  - rewrite !length_map.
    etransitivity; [apply List.filter_length_le|].
    etransitivity; [apply List.filter_length_le|].
    rewrite Hlen. cbn [rows rename]. by rewrite length_map.
Qed.

Lemma preprocessed_report_rows_witness :
  ∃ pre,
    preprocess_consolidated_payment_report sample_conversions (sample_report "£500.00")
    = Ok pre ∧
    map (fun r => map (getcol r) ("Location" :: amount_columns)) (rows pre)
    = [[Str "Exec Box 1"; Num (qc 500 1); Num 0%Qc; Num 0%Qc; Num 0%Qc]] ∧
    Forall (fun r => mentions_total sample_conversions r = false) (rows pre).
Proof.
  eexists. split; [vm_compute; reflexivity|].
  split; [apply (bool_decide_eq_true_1 _); vm_compute; reflexivity|].
  eapply Forall_impl;
    [eapply proj1, (preprocessed_report_rows sample_conversions (sample_report "£500.00"));
     vm_compute; reflexivity|].
  intros r [_ H]. exact H.
Defined.

(** ** Columns of the report *)

Lemma rename_columns_elem (old new c : string) (df : DataFrame) :
  c ≠ old →
  c ∈ columns (rename old new df) ↔ c ∈ columns df ∨ (c = new ∧ old ∈ columns df).
Proof.
  intros Hc. cbn [columns rename]. rewrite list_elem_of_fmap. split.
  - intros (c' & -> & Hin). case_bool_decide as E; [right; by subst|by left].
  - intros [Hin|[-> Hin]].
    + exists c. split; [|done]. by rewrite bool_decide_eq_false_2.
    + exists old. split; [|done]. by rewrite bool_decide_eq_true_2.
Qed.

Lemma has_columns_Forall (df : DataFrame) (cols : list string) :
  has_columns df cols = true ↔ Forall (fun c => c ∈ columns df) cols.
Proof.
  unfold has_columns. rewrite forallb_forall, Forall_forall.
  split; intros H c Hc.
  - apply list_elem_of_In in Hc. exact (bool_decide_eq_true_1 _ (H c Hc)).
  - apply list_elem_of_In in Hc. exact (bool_decide_eq_true_2 _ (H c Hc)).
Qed.

(** X4: preprocessing needs the Location, Drawdown, Purchase orders and EFT
    columns and a credit-card column, spelled Credit card or Credit Card:
    a sheet that has them under one of the two spellings is preprocessed,
    and a sheet that lacks one of them raises KeyError. Preprocessing never
    stops the run by itself. *)
Theorem preprocess_needs_kept_columns (P : Conversions) (sheet : DataFrame) :
  let complete :=
    Forall (fun c => c ∈ columns sheet) ["Location"; "Drawdown"; "Purchase orders"; "EFT"] ∧
    ("Credit card" ∈ columns sheet ∨ "Credit Card" ∈ columns sheet) in
  (complete → ¬ ("Credit card" ∈ columns sheet ∧ "Credit Card" ∈ columns sheet) →
   ∃ pre, preprocess_consolidated_payment_report P sheet = Ok pre) ∧
  (¬ complete → preprocess_consolidated_payment_report P sheet = Raise "KeyError").
Proof.
  cbv zeta.
  assert (Hiff : has_columns (rename "Credit card" "Credit Card" sheet) keep_cols = true ↔
                 Forall (fun c => c ∈ columns sheet)
                        ["Location"; "Drawdown"; "Purchase orders"; "EFT"] ∧
                 ("Credit card" ∈ columns sheet ∨ "Credit Card" ∈ columns sheet)).
  { rewrite has_columns_Forall. unfold keep_cols.
    rewrite !Forall_cons, !Forall_nil.
    rewrite !rename_columns_elem by discriminate. split.
    - intros ([?|[? _]] & [?|[? _]] & [?|[_ ?]] & [?|[? _]] & [?|[? _]] & _);
        try discriminate; tauto.
    - intros [(? & ? & ? & ? & _) [?|?]]; tauto. }
  unfold preprocess_consolidated_payment_report, select. split.
  - intros H _. apply Hiff in H. rewrite H. cbn [bind]. eauto.
  - intros H. destruct (has_columns _ keep_cols) eqn:E; [|done].
    exfalso. apply H, Hiff. done.
Qed.

Lemma preprocess_needs_kept_columns_witness :
  (∃ pre, preprocess_consolidated_payment_report sample_conversions (sample_report "500")
          = Ok pre) ∧
  preprocess_consolidated_payment_report sample_conversions
    (mkDF ["Location"; "Drawdown"; "Credit card"; "Purchase orders"] [])
  = Raise "KeyError".
Proof.
  split.
  - apply (proj1 (preprocess_needs_kept_columns sample_conversions (sample_report "500"))).
    + split; [repeat constructor|left; repeat constructor].
    + intros [_ H]. revert H. apply (bool_decide_eq_false_1 _). vm_compute. reflexivity.
  - apply (proj2 (preprocess_needs_kept_columns sample_conversions
                    (mkDF ["Location"; "Drawdown"; "Credit card"; "Purchase orders"] []))).
    intros [H _]. revert H. apply (bool_decide_eq_false_1 _). vm_compute. reflexivity.
Defined.

(** ** More on lump sums *)

Lemma keep_first_length {A} `{EqDecision A} (l : list A) :
  length (keep_first l) <= length l.
Proof.
  induction l as [|x l IH]; cbn; [done|].
  pose proof (List.filter_length_le (fun y => negb (bool_decide (y = x))) (keep_first l)).
  lia.
Qed.

Lemma omap_length_le {A B} (f : A → option B) (l : list A) :
  length (omap f l) <= length l.
Proof. induction l as [|x l IH]; cbn; [done|]. destruct (f x); cbn; lia. Qed.

Lemma indexed_from_length {A} (n : nat) (l : list A) :
  length (indexed_from n l) = length l.
Proof. revert n. induction l as [|x l IH]; intros n; cbn; [done|]. by rewrite IH. Qed.

Lemma set_total_zero_key (keys : list string) (r : row) :
  key_has_na (key_of keys r) = false →
  key_has_na (key_of keys (set_total_zero r)) = false.
Proof.
  unfold key_of, key_has_na, set_total_zero.
  induction keys as [|c keys IH]; cbn; [done|].
  intros [Hc Hrest]%orb_false_elim.
  rewrite (IH Hrest), orb_false_r.
  destruct (decide (c = "Total")) as [->|Hne].
  - by rewrite getcol_insert.
  - by rewrite getcol_insert_ne.
Qed.

Lemma zero_after_first_keys (keys : list string) (rs : list row) (r : row) :
  r ∈ zero_after_first keys rs → key_has_na (key_of keys r) = false.
Proof.
  unfold zero_after_first. rewrite list_elem_of_omap.
  intros ([i x] & _ & Hr). cbn [fst snd] in Hr.
  destruct (key_has_na (key_of keys x)) eqn:E; [discriminate|].
  destruct (bool_decide _); injection Hr as <-; [by apply set_total_zero_key|done].
Qed.

(** X5: the frame that lump-sum de-duplication returns has no two equal rows and
    no row with a missing cell in a key column, and it has at most as many
    rows as the input: a line whose key is incomplete (a guest name that did
    not parse, an empty ordering time) leaves the table at this step. *)
Theorem lumpsum_output_rows (df out : DataFrame) (keys : list string) :
  "Total" ∈ columns df →
  lumpsum_deduping df keys = Ok out →
  NoDup (rows out) ∧
  Forall (fun r => key_has_na (key_of (lumpsum_keys df keys) r) = false) (rows out) ∧
  length (rows out) <= length (rows df) ∧
  columns out = columns df.
Proof.
  intros Htotal Hout.
  assert (Hkeys : has_columns df (lumpsum_keys df keys) = true).
  { destruct (has_columns df (lumpsum_keys df keys)) eqn:E; [done|].
    unfold lumpsum_deduping, sort_values in Hout. cbv zeta in Hout.
    rewrite E in Hout. discriminate. }
  destruct (lumpsum_deduping_rows df keys Hkeys Htotal) as (sorted & _ & Hperm & Heq).
  rewrite Heq in Hout. injection Hout as <-. cbn [rows columns].
  split; [apply keep_first_NoDup|]. split; [|split; [|done]].
  - apply Forall_forall. intros r Hr. apply (proj1 (keep_first_elem _ _)) in Hr.
    exact (zero_after_first_keys _ _ _ Hr).
  - etransitivity; [apply keep_first_length|].
    unfold zero_after_first. etransitivity; [apply omap_length_le|].
    by rewrite indexed_from_length, Hperm.
Qed.

Lemma lumpsum_output_rows_witness :
  ∃ out,
    lumpsum_deduping repeated_lump merge_keys = Ok out ∧
    NoDup (rows out) ∧ length (rows out) <= 3.
Proof.
  destruct (lumpsum_deduping repeated_lump merge_keys) as [out| |] eqn:E;
    [|vm_compute in E; discriminate..].
  exists out. split; [done|].
  destruct (lumpsum_output_rows repeated_lump out merge_keys) as (H1 & _ & H2 & _).
  - apply (bool_decide_eq_true_1 _). vm_compute. reflexivity.
  - exact E.
  - split; [exact H1|exact H2].
Defined.

(** ** More on the API menu table *)














Lemma orders_nothing_lines (P : Conversions) (a : ApiRow) :
  orders_nothing a → (api_row_lines P a).1 = [].
Proof.
  intros (H1 & H2 & H3 & H4 & H5). unfold api_row_lines. cbv zeta. cbn [fst].
  rewrite H5. cbn [map flat_map fst snd]. rewrite !app_nil_r.
  unfold menu_named in *.
  destruct (FoodMenu a) as [v1|]; [destruct (Name v1); [rewrite H1|]|];
    (destruct (KidsFoodMenu a) as [v2|]; [destruct (Name v2); [rewrite H2|]|]);
    (destruct (DrinkMenu a) as [v3|]; [destruct (Name v3); [rewrite H3|]|]);
    (destruct (KidsDrinkMenu a) as [v4|]; [destruct (Name v4); [rewrite H4|]|]);
    reflexivity.
Qed.

(** X9: when no pre-order of the API response names a menu or lists an item, the
    menu table has no rows and no columns, and the merge of the manual report
    with it raises KeyError for every manual report: the run does not reach
    the merged table. *)
Theorem empty_menu_breaks_merge (P : Conversions) (df_api : list ApiRow)
  (df_manual : DataFrame) :
  Forall orders_nothing df_api →
  (process_api_menu P df_api).1 = mkDF [] [] ∧
  merged_orders df_manual (menu_with_numeric_ids P (process_api_menu P df_api).1)
  = Raise "KeyError".
Proof.
  intros H.
  assert (Hmenu : (process_api_menu P df_api).1 = mkDF [] []).
  { unfold process_api_menu. cbn [fst].
    replace (flat_map (fun a => (api_row_lines P a).1) df_api) with (@nil row); [done|].
    induction H as [|a l Ha _ IH]; cbn [flat_map]; [done|].
    by rewrite (orders_nothing_lines P a Ha), <- IH. }
  split; [exact Hmenu|]. rewrite Hmenu.
  unfold menu_with_numeric_ids, merged_orders, merge_left. cbn [columns].
  rewrite bool_decide_eq_false_2 by (apply not_elem_of_nil).
  replace (has_columns (mkDF [] []) merge_keys) with false by reflexivity.
  by rewrite andb_false_r.
Qed.

Lemma empty_menu_breaks_merge_witness :
  merged_orders sample_manual
    (menu_with_numeric_ids sample_conversions
       (process_api_menu sample_conversions
          [{| Guest := Some "J Smith (j@x.com)"; ApiLocation := Str "Box 12";
              ApiEvent := Str "Arsenal v Chelsea"; EventId := Some 77%Z;
              KickOffEventStart := None; Status := Str "Pending";
              FoodMenu := None; KidsFoodMenu := None; DrinkMenu := None;
              KidsDrinkMenu := None; PreOrderItems := [] |}]).1)
  = Raise "KeyError".
Proof.
  apply empty_menu_breaks_merge. repeat constructor.
Defined.

(** ** Resolved event ids *)

Lemma with_event_ids_rows (P : Conversions) (df_manual : DataFrame)
  (event_map : gmap event_key string) :
  "Event_Date" ∈ columns df_manual →
  Forall (fun r => is_Some (r !! "Location") ∧ is_Some (r !! "Event")) (rows df_manual) →
  ∃ ids,
    with_event_ids P df_manual event_map = Ok ids ∧
    rows ids
    = map (fun r =>
             let dated :=
               <["Event_Date" := to_datetime_dayfirst P (getcol r "Event_Date")]> r in
             <["EventId" := from_option Str NA
                              (match lookup_key P dated with
                               | Ok k => event_map !! k
                               | _ => None
                               end)]> dated)
          (rows df_manual).
Proof.
  intros Hcol Hrows. unfold with_event_ids.
  rewrite (bool_decide_eq_true_2 ("Event_Date" ∈ columns df_manual)) by done.
  cbn [negb]. unfold assign_r. cbn [rows columns assign].
  erewrite (traverse_map _ (fun r =>
     <["EventId" := from_option Str NA
                      (match lookup_key P r with Ok k => event_map !! k | _ => None end)]> r)).
  - cbn [bind]. eexists. split; [reflexivity|]. cbn [rows]. by rewrite map_map.
  - intros r' (r & -> & Hr)%list_elem_of_fmap.
    rewrite Forall_forall in Hrows. destruct (Hrows r Hr) as [Hloc Hevt].
    destruct (lookup_key_dated P r (getcol r "Event_Date") Hloc Hevt) as [k Hk].
    unfold map_event_id. rewrite Hk. done.
Qed.

(** X10: a manual order whose (location, event, date) key is in the event lookup
    table leaves the resolution step at its place, with its Event_Date parsed
    day first and its EventId the stored id read as a number and truncated
    to an integer, 0 when the stored id is not a number. *)
Theorem resolved_records_get_stored_id
  (P : Conversions) (df_manual : DataFrame) (event_map : gmap event_key string) :
  "Event_Date" ∈ columns df_manual →
  Forall (fun r => is_Some (r !! "Location") ∧ is_Some (r !! "Event")) (rows df_manual) →
  ∃ out,
    resolve_event_ids P df_manual event_map = Ok out ∧
    ∀ i r key v,
      rows df_manual !! i = Some r →
      let dated := <["Event_Date" := to_datetime_dayfirst P (getcol r "Event_Date")]> r in
      lookup_key P dated = Ok key →
      event_map !! key = Some v →
      rows out !! i
      = Some (<["EventId" := Num (from_option Qc_trunc 0%Qc (parse_number P v))]> dated).
Proof.
  intros Hcol Hrows.
  destruct (with_event_ids_rows P df_manual event_map Hcol Hrows) as (ids & Hids & Hidrows).
  eexists. unfold resolve_event_ids. rewrite Hids. cbn [bind]. split; [reflexivity|].
  intros i r key v Hr. cbv zeta. intros Hkey Hv.
  cbn [rows assign]. rewrite Hidrows, !list_lookup_fmap, Hr.
  cbn [fmap option_fmap option_map]. rewrite Hkey, Hv. cbn [from_option].
  rewrite getcol_insert. cbn [int_or_zero]. by rewrite insert_insert_eq.
Qed.

Lemma resolved_records_get_stored_id_witness :
  ∃ out,
    resolve_event_ids sample_conversions sample_manual
      (process_api_menu sample_conversions sample_api).2 = Ok out ∧
    rows out !! 0
    = Some (<["EventId" := Num (qc 77 1)]>
              (manual_line "Arsenal v Chelsea" 1725148800 "J Smith" "j@x.com" "Food"
                           "2024-08-20 10:00" (qc 45 1))).
Proof.
  destruct (resolved_records_get_stored_id sample_conversions sample_manual
              (process_api_menu sample_conversions sample_api).2)
    as (out & Hout & Hrow).
  - apply (bool_decide_eq_true_1 _). vm_compute. reflexivity.
  - repeat constructor; apply (bool_decide_eq_true_1 _); vm_compute; reflexivity.
  - exists out. split; [exact Hout|].
    rewrite (Hrow 0
               (manual_line "Arsenal v Chelsea" 1725148800 "J Smith" "j@x.com" "Food"
                            "2024-08-20 10:00" (qc 45 1))
               ("Box 12", "Arsenal v Chelsea", Some 19967%Z) "77").
    + apply (bool_decide_eq_true_1 _). vm_compute. reflexivity.
    + reflexivity.
    + vm_compute. reflexivity.
    + vm_compute. reflexivity.
Defined.

(** ** Standardized locations are fixed points *)

Lemma rstrip_tail (c : ascii) (s : string) :
  Text.rstrip (String c s) = String c s → s ≠ EmptyString → Text.rstrip s = s.
Proof.
  cbn. destruct (Text.rstrip s) as [|d t] eqn:E.
  - destruct (Text.is_space c); [discriminate|]. intros [= <-]. done.
  - intros [= <-]. done.
Qed.

Lemma rstrip_cons (c : ascii) (s : string) :
  Text.rstrip s = s → s ≠ EmptyString → Text.rstrip (String c s) = String c s.
Proof. intros H Hne. cbn. rewrite H. by destruct s. Qed.

Lemma rstrip_space_last (c : ascii) :
  Text.is_space c = true → Text.rstrip (String c EmptyString) ≠ String c EmptyString.
Proof. intros E. cbn. by rewrite E. Qed.

Lemma rstrip_lstrip (s : string) :
  Text.rstrip s = s → Text.rstrip (Text.lstrip s) = Text.lstrip s.
Proof.
  induction s as [|c s IH]; [done|]. intros H. cbn [Text.lstrip].
  destruct (Text.is_space c) eqn:E; [|done].
  destruct s as [|d s]; [done|]. apply IH. by apply (rstrip_tail c).
Qed.

Lemma lstrip_nonempty (s : string) :
  Text.rstrip s = s → s ≠ EmptyString → Text.lstrip s ≠ EmptyString.
Proof.
  induction s as [|c s IH]; [done|]. intros H _. cbn [Text.lstrip].
  destruct (Text.is_space c) eqn:E; [|done].
  destruct s as [|d s]; [by apply rstrip_space_last in H|].
  apply IH; [by apply (rstrip_tail c)|done].
Qed.

Lemma drop_prefix_app (p s r : string) :
  Text.drop_prefix p s = Some r → s = p +:+ r.
Proof.
  revert s. induction p as [|a p IH]; intros s; cbn.
  - by intros [= ->].
  - destruct s as [|b s]; [done|]. destruct (Ascii.eqb_spec a b) as [->|]; [|done].
    intros H. by rewrite (IH _ H).
Qed.

Lemma replace_exec_cases (t : string) :
  Text.replace_exec t = t ∨
  ∃ c rest, t = String "e" (String "x" (String "e" (String "c" (String c rest)))) ∧
            Text.is_space c = true ∧
            Text.replace_exec t = "executive " +:+ Text.lstrip rest.
Proof.
  unfold Text.replace_exec.
  destruct (Text.drop_prefix "exec" t) as [[|c rest]|] eqn:Hp; [by left| |by left].
  destruct (Text.is_space c) eqn:Hc; [|by left].
  right. exists c, rest. apply drop_prefix_app in Hp. done.
Qed.

Lemma replace_exec_fixed (t : string) :
  Text.lower t = t → Text.strip t = t →
  let u := Text.replace_exec t in
  Text.lower u = u ∧ Text.strip u = u ∧ Text.replace_exec u = u.
Proof.
  intros Hlow Hstrip. cbv zeta.
  destruct (replace_exec_cases t) as [H|(c & rest & -> & Hc & ->)]; [by rewrite !H|].
  assert (Hr : Text.rstrip
                 (String "e" (String "x" (String "e" (String "c" (String c rest)))))
               = String "e" (String "x" (String "e" (String "c" (String c rest))))).
  { rewrite <- Hstrip at 2. unfold Text.strip. reflexivity. }
  do 4 (apply rstrip_tail in Hr; [|done]).
  assert (Hrest : rest ≠ EmptyString).
  { intros ->. by apply rstrip_space_last in Hr. }
  apply rstrip_tail in Hr; [|done].
  pose proof (rstrip_lstrip rest Hr) as Hx.
  pose proof (lstrip_nonempty rest Hr Hrest) as Hne.
  assert (Hl : Text.lower rest = rest) by (cbn [Text.lower] in Hlow; congruence).
  split; [|split].
  - cbv [append]. cbn [Text.lower]. rewrite <- (lstrip_lower rest), Hl. reflexivity.
  - unfold Text.strip.
    cbv [append]. cbn [Text.lstrip].
    change (Text.is_space "e") with false. cbv iota.
    do 10 (apply rstrip_cons; [|done]). exact Hx.
  - reflexivity.
Qed.

Lemma standardized_string_fixed (s : string) :
  let u := Text.replace_exec (Text.lower (Text.strip s)) in
  Text.replace_exec (Text.lower (Text.strip u)) = u.
Proof.
  cbv zeta.
  destruct (replace_exec_fixed (Text.lower (Text.strip s))) as (H1 & H2 & H3).
  - apply lower_idem.
  - by rewrite strip_lower, strip_idem.
  - by rewrite H2, H1, H3.
Qed.

(** X11: standardizing locations is idempotent: a frame that [standardize_location]
    returned is returned unchanged by a second call, for every frame and
    column; a stripped lower-case location that starts with "exec " is
    rewritten once to "executive " and is not touched again. *)
Theorem standardize_location_idempotent (P : Conversions) (df out : DataFrame)
  (loc_col : string) :
  standardize_location P df loc_col = Ok out →
  standardize_location P out loc_col = Ok out.
Proof.
  unfold standardize_location. case_bool_decide as Hcol; [|done].
  intros [= <-]. unfold assign. cbn [columns rows].
  rewrite !(bool_decide_eq_true_2 _ Hcol). f_equal. f_equal.
  rewrite !map_map. apply map_ext. intros r.
  rewrite !getcol_insert. cbn [lower_strip str_replace_exec astype_str].
  rewrite standardized_string_fixed.
  by rewrite !insert_insert_eq.
Qed.

Lemma standardize_location_idempotent_witness :
  ∃ out,
    standardize_location sample_conversions sample_merged "Location" = Ok out ∧
    standardize_location sample_conversions out "Location" = Ok out ∧
    (fun r => getcol r "Location") <$> head (rows out) = Some (Str "executive box 1").
Proof.
  eexists. split; [reflexivity|]. split.
  - apply (standardize_location_idempotent sample_conversions sample_merged).
    reflexivity.
  - apply (bool_decide_eq_true_1 _). vm_compute. reflexivity.
Defined.

Lemma sort_by_elem {A} (leb : A → A → bool) (l : list A) (x : A) :
  x ∈ sort_by leb l ↔ x ∈ l.
Proof. by rewrite (sort_by_perm leb l). Qed.

Lemma filter_by_choice_rows (chosen : cell → bool) (col : string) (df out : DataFrame) :
  filter_by_choice chosen col df = Ok out →
  columns out = columns df ∧
  rows out = List.filter (passes_choice (columns df) chosen col) (rows df).
Proof.
  unfold filter_by_choice, passes_choice. case_bool_decide as Hcol; cbn [negb orb].
  - unfold sorted_options. cbv zeta. destruct (same_kind _); [|discriminate].
    cbn [bind]. intros [= <-]. cbn [where_ columns rows]. split; [done|].
    apply filter_ext_in. intros r Hr. unfold multiselect.
    destruct (notna (getcol r col) && chosen (getcol r col)) eqn:E.
    + apply andb_prop in E as [E1 E2]. apply bool_decide_eq_true_2.
      apply filter_elem. split; [|done]. apply sort_by_elem, keep_first_elem.
      apply filter_elem. split; [|done].
      apply list_elem_of_fmap. by exists r.
    + apply bool_decide_eq_false_2. intros [Hin Hch]%filter_elem.
      apply sort_by_elem, keep_first_elem, filter_elem in Hin as [_ Hna].
      rewrite Hna, Hch in E. discriminate E.
  - intros [= <-]. split; [done|]. symmetry. apply filter_all_true, Forall_forall. done.
Qed.

Lemma filtered_orders_kept (P : Conversions) (S : Sidebar) (df_merged dated out : DataFrame) :
  dated_orders P df_merged = Ok dated →
  filtered_orders P S df_merged = Ok out →
  columns out = columns dated ∧
  rows out = List.filter (kept_by S (columns dated)) (rows dated).
Proof.
  intros Hd. unfold filtered_orders. cbv zeta. rewrite Hd. cbn [bind].
  destruct (filter_by_choice (location_choice S) _ _) as [d1| |] eqn:E1; [|done..].
  cbn [bind].
  destruct (filter_by_choice (order_type_choice S) _ _) as [d2| |] eqn:E2; [|done..].
  cbn [bind].
  destruct (filter_by_choice (menu_item_choice S) _ _) as [d3| |] eqn:E3; [|done..].
  cbn [bind]. destruct (status_twice df_merged); [done|]. intros E4.
  apply filter_by_choice_rows in E1 as [C1 R1], E2 as [C2 R2], E3 as [C3 R3],
      E4 as [C4 R4].
  cbn [where_ columns rows] in C1, R1.
  rewrite C4, C3, C2, C1. split; [done|].
  rewrite R4, R3, R2, R1, C3, C2, C1, !filter_filter.
  apply filter_ext_in. intros r _. unfold kept_by. by rewrite !andb_assoc.
Qed.

Lemma same_kind_text (l : list cell) :
  Forall (fun c => text_or_missing c = true ∧ notna c = true) l → same_kind l = true.
Proof.
  destruct 1 as [|c l [Hc Hn] Hl]; [done|]. cbn [same_kind].
  apply forallb_forall. intros d Hd. rewrite Forall_forall in Hl.
  apply list_elem_of_In, Hl in Hd as [Hd Hdn].
  destruct c, d; try discriminate; done.
Qed.

Lemma filter_by_choice_text (chosen : cell → bool) (col : string) (df : DataFrame) :
  col ∈ filter_columns →
  Forall (fun r => text_choices r = true) (rows df) →
  ∃ out, filter_by_choice chosen col df = Ok out ∧
         Forall (fun r => text_choices r = true) (rows out).
Proof.
  intros Hcol Hrows.
  assert (∃ out, filter_by_choice chosen col df = Ok out) as [out Hout].
  { unfold filter_by_choice. destruct (bool_decide (col ∈ columns df)); [|eauto].
    unfold sorted_options. cbv zeta. rewrite same_kind_text; [cbn [bind]; eauto|].
    apply Forall_forall. intros c [Hc Hn]%keep_first_elem%filter_elem.
    split; [|done]. apply list_elem_of_fmap in Hc as (r & -> & Hr).
    rewrite Forall_forall in Hrows. specialize (Hrows r Hr).
    unfold text_choices in Hrows. rewrite forallb_forall in Hrows.
    apply Hrows. by apply list_elem_of_In. }
  exists out. split; [done|].
  apply filter_by_choice_rows in Hout as [_ ->].
  apply Forall_forall. intros r [Hr _]%filter_elem.
  rewrite Forall_forall in Hrows. by apply Hrows.
Qed.

(** X12: the four sidebar filters and the date range amount to one test per row.
    When the Location, Order_type, Menu_Item and Status cells of the merged
    table are text or missing, the filters return a table, with the columns
    of the dated table and exactly its rows that have an ordering time
    between the midnights of the two dates and, in each of the four columns
    that the table has, a cell that is not missing and that is left
    selected. *)
Theorem filtered_orders_rows (P : Conversions) (S : Sidebar) (df_merged dated : DataFrame) :
  status_twice df_merged = false →
  dated_orders P df_merged = Ok dated →
  Forall (fun r => text_choices r = true) (rows dated) →
  ∃ out,
    filtered_orders P S df_merged = Ok out ∧
    columns out = columns dated ∧
    rows out = List.filter (kept_by S (columns dated)) (rows dated).
Proof.
  intros Htwice Hd Htext.
  assert (∃ out, filtered_orders P S df_merged = Ok out) as [out Hout].
  { unfold filtered_orders. cbv zeta. rewrite Hd, Htwice. cbn [bind].
    set (ranged := where_ _ dated).
    assert (H0 : Forall (fun r => text_choices r = true) (rows ranged)).
    { apply Forall_forall. intros r [Hr _]%filter_elem.
      rewrite Forall_forall in Htext. by apply Htext. }
    destruct (filter_by_choice_text (location_choice S) "Location" ranged)
      as (d1 & -> & H1); [unfold filter_columns; repeat constructor|done|]. cbn [bind].
    destruct (filter_by_choice_text (order_type_choice S) "Order_type" d1)
      as (d2 & -> & H2); [unfold filter_columns; repeat constructor|done|]. cbn [bind].
    destruct (filter_by_choice_text (menu_item_choice S) "Menu_Item" d2)
      as (d3 & -> & H3); [unfold filter_columns; repeat constructor|done|]. cbn [bind].
    destruct (filter_by_choice_text (status_choice S) "Status" d3)
      as (d4 & -> & H4); [unfold filter_columns; repeat constructor|done|]. eauto. }
  exists out. split; [done|]. by apply (filtered_orders_kept P S df_merged).
Qed.

Lemma filtered_orders_rows_witness :
  ∃ out,
    filtered_orders sample_conversions (default_choices 19900 19967) sample_filter_lines
    = Ok out ∧
    columns out = ["EventId"; "Location"; "Event"; "Order_type"; "Ordered_on"; "Total";
                   "Menu_Item"; "Status"] ∧
    length (rows out) = 1.
Proof.
  destruct (dated_orders sample_conversions sample_filter_lines) as [dated| |] eqn:Hd;
    [|vm_compute in Hd; discriminate..].
  destruct (filtered_orders_rows sample_conversions (default_choices 19900 19967)
              sample_filter_lines dated eq_refl Hd) as (out & Hout & Hcols & Hrows).
  - vm_compute in Hd. injection Hd as <-.
    repeat constructor.
  - exists out. split; [exact Hout|].
    vm_compute in Hd. injection Hd as <-.
    split; [exact Hcols|]. rewrite Hrows. vm_compute. reflexivity.
Defined.

(** X13: whatever the user selects, no line with a missing Location, Order_type,
    Menu_Item or Status leaves the filters: the options offered never
    include a missing value, so a line that the API could not match (its
    Menu_Item is missing) is dropped even when nothing is deselected. Nor
    does a line without an ordering time, or one ordered after midnight of
    the end date. *)
Theorem filters_drop_missing_cells (P : Conversions) (S : Sidebar)
  (df_merged out : DataFrame) (r : row) :
  filtered_orders P S df_merged = Ok out →
  r ∈ rows out →
  (∀ col, col ∈ filter_columns → col ∈ columns out → getcol r col ≠ NA) ∧
  ∃ t, getcol r "Ordered_on" = Stamp t ∧
       (start_date S * 86400 <= t <= end_date S * 86400)%Z.
Proof.
  intros Hout Hr.
  destruct (dated_orders P df_merged) as [dated| |] eqn:Hd;
    [|unfold filtered_orders in Hout; cbv zeta in Hout; rewrite Hd in Hout;
      discriminate..].
  destruct (filtered_orders_kept P S df_merged dated out Hd Hout) as [Hcols Hrows].
  rewrite Hrows in Hr. apply filter_elem in Hr as [_ Hk]. unfold kept_by in Hk.
  repeat (apply andb_prop in Hk as [Hk ?]).
  split.
  - intros col Hcol Hin. rewrite Hcols in Hin.
    assert (∀ chosen, passes_choice (columns dated) chosen col r = true →
                      getcol r col ≠ NA) as Hpass.
    { intros chosen Hp. unfold passes_choice in Hp.
      rewrite (bool_decide_eq_true_2 _ Hin) in Hp. cbn [negb orb] in Hp.
      apply andb_prop in Hp as [Hp _]. unfold notna in Hp.
      by apply negb_true_iff, bool_decide_eq_false_1 in Hp. }
    unfold filter_columns in Hcol.
    repeat (apply elem_of_cons in Hcol as [->|Hcol]; [by eapply Hpass|]).
    by apply elem_of_nil in Hcol.
  - unfold in_date_range in Hk. destruct (getcol r "Ordered_on"); try discriminate.
    eexists. split; [done|]. apply andb_prop in Hk as [Hlo Hhi]. lia.
Qed.

Lemma filters_drop_missing_cells_witness :
  ∃ out r,
    filtered_orders sample_conversions (default_choices 19900 19967) sample_filter_lines
    = Ok out ∧
    rows out = [r] ∧ getcol r "Menu_Item" ≠ NA.
Proof.
  eexists _, _. split; [vm_compute; reflexivity|]. split; [reflexivity|].
  eapply (filters_drop_missing_cells sample_conversions (default_choices 19900 19967)
            sample_filter_lines).
  - vm_compute. reflexivity.
  - cbn [rows]. apply list_elem_of_here.
  - unfold filter_columns. repeat constructor.
  - cbn [columns]. repeat constructor.
Defined.

Lemma not_suffixed (c k : string) :
  k ∈ "Menu_Item" :: "Total" :: merge_keys →
  c +:+ "_manual" ≠ k ∧ c +:+ "_api" ≠ k.
Proof.
  unfold merge_keys. intros Hk.
  repeat (apply elem_of_cons in Hk as [->|Hk]; [split; intros H; no_suffix H c|]).
  by apply elem_of_nil in Hk.
Qed.

Lemma lookup_named_Some (cols : list string) (f : string → string) (g : string → cell)
  (k : string) :
  k ∈ cols → f k = k → (∀ c, c ∈ cols → f c = k → c = k) →
  (list_to_map (map (fun c => (f c, g c)) cols) : row) !! k = Some (g k).
Proof.
  intros Hk Hf Huniq.
  destruct (_ !! k) as [v|] eqn:E.
  - apply elem_of_list_to_map_2, list_elem_of_fmap in E as (c & [= Hc ->] & Hin).
    by rewrite (Huniq c Hin (eq_sym Hc)).
  - apply not_elem_of_list_to_map_2 in E. exfalso. apply E.
    apply list_elem_of_fmap. exists (k, g k). split; [done|].
    apply list_elem_of_fmap. exists k. by rewrite Hf.
Qed.

Lemma lookup_named_None (cols : list string) (f : string → string) (g : string → cell)
  (k : string) :
  (∀ c, c ∈ cols → f c ≠ k) →
  (list_to_map (map (fun c => (f c, g c)) cols) : row) !! k = None.
Proof.
  intros Hne. apply not_elem_of_list_to_map_1.
  intros ([k' v] & -> & (c & [= -> ->] & Hc)%list_elem_of_fmap)%list_elem_of_fmap.
  by apply (Hne c).
Qed.

Lemma Ok_inj {A} (a b : A) : Ok a = Ok b → a = b.
Proof. by intros [= ->]. Qed.

Lemma has_columns_elem (df : DataFrame) (cols : list string) (c : string) :
  has_columns df cols = true → c ∈ cols → c ∈ columns df.
Proof.
  unfold has_columns. rewrite forallb_forall. intros H Hc.
  apply list_elem_of_In, H in Hc. by apply bool_decide_eq_true_1 in Hc.
Qed.

(** A line of the merged table: its key is that of a line of the manual
    report, and its menu item is that of a menu line with this key, or
    missing when the menu has none. *)
Lemma merge_left_lines (l r m : DataFrame) (line : row) :
  merge_left l r merge_keys ("_manual", "_api") = Ok m →
  line ∈ rows m →
  ∃ x oy,
    x ∈ rows l ∧
    (∀ y, oy = Some y → y ∈ rows r ∧ key_of merge_keys y = key_of merge_keys x) ∧
    key_of merge_keys line = key_of merge_keys x ∧
    ("Menu_Item" ∉ columns l → "Menu_Item" ∈ columns r →
     getcol line "Menu_Item" = from_option (fun y => getcol y "Menu_Item") NA oy).
Proof.
  unfold merge_left.
  destruct (has_columns l merge_keys && has_columns r merge_keys) eqn:Hcols; [|done].
  apply andb_prop in Hcols as [Hl Hr]. cbv zeta. intros Hm%Ok_inj. subst m.
  cbn [rows fst snd].
  set (overlap := fun c : string =>
         bool_decide (c ∈ columns l) && bool_decide (c ∈ columns r)
         && negb (bool_decide (c ∈ merge_keys))).
  set (lname := fun c : string => if overlap c then c +:+ "_manual" else c).
  set (rname := fun c : string => if overlap c then c +:+ "_api" else c).
  set (rcols := List.filter (fun c => negb (bool_decide (c ∈ merge_keys))) (columns r)).
  intros Hline.
  apply list_elem_of_In, in_flat_map in Hline as (x & Hx%list_elem_of_In & Hline).
  assert (∃ oy,
    (∀ y, oy = Some y → y ∈ rows r ∧ key_of merge_keys y = key_of merge_keys x) ∧
    line = (list_to_map (map (fun c => (lname c, getcol x c)) (columns l)) : row)
           ∪ list_to_map (map (fun c => (rname c, from_option (fun y => getcol y c) NA oy))
                              rcols)) as (oy & Hoy & ->).
  { destruct (group_rows merge_keys (key_of merge_keys x) (rows r)) as [|y0 ys] eqn:G.
    - exists None. split; [done|]. cbn [In] in Hline. by destruct Hline as [<-|[]].
    - apply in_map_iff in Hline as (y & <- & Hy). exists (Some y). split; [|done].
      intros ? [= <-]. rewrite <- G in Hy. apply list_elem_of_In in Hy.
      unfold group_rows in Hy. apply filter_elem in Hy as [Hy Hk].
      by apply bool_decide_eq_true_1 in Hk. }
  exists x, oy. split; [done|]. split; [done|].
  assert (Hkey : ∀ k, k ∈ merge_keys → overlap k = false).
  { intros k Hk. unfold overlap. rewrite (bool_decide_eq_true_2 _ Hk).
    by rewrite andb_false_r. }
  split.
  - unfold key_of. apply map_ext_in. intros k Hk%list_elem_of_In. unfold getcol.
    rewrite lookup_union_l'.
    + rewrite lookup_named_Some; [done|by eapply has_columns_elem| |].
      * unfold lname. by rewrite Hkey.
      * intros c _. unfold lname. destruct (overlap c); [|done]. intros Hc.
        exfalso. refine (proj1 (not_suffixed c k _) Hc). by do 2 right.
    + rewrite lookup_named_Some; [done|by eapply has_columns_elem| |].
      * unfold lname. by rewrite Hkey.
      * intros c _. unfold lname. destruct (overlap c); [|done]. intros Hc.
        exfalso. refine (proj1 (not_suffixed c k _) Hc). by do 2 right.
  - intros Hnl Hinr. unfold getcol. rewrite lookup_union_r.
    + rewrite lookup_named_Some; [done| | |].
      * unfold rcols. apply filter_elem. split; [done|].
        apply negb_true_iff, bool_decide_eq_false_2. unfold merge_keys.
        intros H. repeat (apply elem_of_cons in H as [H|H]; [discriminate H|]).
        by apply elem_of_nil in H.
      * unfold rname, overlap. by rewrite (bool_decide_eq_false_2 _ Hnl).
      * intros c _. unfold rname. destruct (overlap c); [|done]. intros Hc.
        exfalso. refine (proj2 (not_suffixed c "Menu_Item" _) Hc). by left.
    + apply lookup_named_None. intros c Hc. unfold lname.
      destruct (overlap c).
      * refine (proj1 (not_suffixed c "Menu_Item" _)). by left.
      * by intros ->.
Qed.

Lemma lumpsum_lines (df out : DataFrame) (keys : list string) (r : row) :
  "Total" ∈ columns df →
  lumpsum_deduping df keys = Ok out →
  r ∈ rows out →
  columns out = columns df ∧
  ∃ x, x ∈ rows df ∧ (r = x ∨ r = set_total_zero x).
Proof.
  intros Htotal Hout Hr.
  assert (Hkeys : has_columns df (lumpsum_keys df keys) = true).
  { destruct (has_columns df (lumpsum_keys df keys)) eqn:E; [done|].
    unfold lumpsum_deduping, sort_values in Hout. cbv zeta in Hout.
    rewrite E in Hout. discriminate. }
  destruct (lumpsum_deduping_rows df keys Hkeys Htotal) as (sorted & _ & Hperm & Heq).
  rewrite Heq in Hout. injection Hout as <-. cbn [rows columns] in *.
  split; [done|].
  apply (proj1 (keep_first_elem _ _)) in Hr. unfold zero_after_first in Hr.
  apply list_elem_of_omap in Hr as ([i x] & Hx & Hr). cbn [fst snd] in Hr.
  apply indexed_from_elem in Hx as [_ Hx]. apply list_elem_of_lookup_2 in Hx.
  rewrite Hperm in Hx. exists x. split; [done|].
  destruct (key_has_na _); [discriminate|].
  destruct (bool_decide _); injection Hr as <-; eauto.
Qed.

Lemma getcol_delete_ne (r : row) (c c' : string) :
  c ≠ c' → getcol (delete c r) c' = getcol r c'.
Proof. intros H. unfold getcol. by rewrite lookup_delete_ne. Qed.

Lemma status_and_time_ne (c : string) :
  c ∉ status_and_time →
  c ≠ "Status" ∧ c ≠ "Status_manual" ∧ c ≠ "Status_api" ∧ c ≠ "Ordered_on".
Proof. unfold status_and_time. rewrite !not_elem_of_cons. tauto. Qed.

Lemma tidy_status_lines (df : DataFrame) :
  (∀ c, c ∉ status_and_time → c ∈ columns df → c ∈ columns (tidy_status df)) ∧
  ∀ r', r' ∈ rows (tidy_status df) →
        ∃ r, r ∈ rows df ∧ ∀ c, c ∉ status_and_time → getcol r' c = getcol r c.
Proof.
  unfold tidy_status. cbv zeta.
  set (renamed := if bool_decide ("Status_manual" ∈ columns df)
                  then rename "Status_manual" "Status" df else df).
  assert ((∀ c, c ∉ status_and_time → c ∈ columns df → c ∈ columns renamed) ∧
          ∀ r', r' ∈ rows renamed →
                ∃ r, r ∈ rows df ∧ ∀ c, c ∉ status_and_time → getcol r' c = getcol r c)
    as [Hcols Hrows].
  { subst renamed. destruct (bool_decide _); [|eauto]. unfold rename. cbn [columns rows].
    split.
    - intros c (H1 & H2 & H3 & H4)%status_and_time_ne Hin.
      apply list_elem_of_fmap. exists c. by rewrite bool_decide_eq_false_2.
    - intros r' (r & -> & Hr)%list_elem_of_fmap. exists r. split; [done|].
      intros c (H1 & H2 & H3 & H4)%status_and_time_ne.
      destruct (r !! "Status_manual"); [|done].
      rewrite getcol_insert_ne by done. by apply getcol_delete_ne. }
  clearbody renamed.
  destruct (bool_decide ("Status_api" ∈ columns renamed)); [|exact (conj Hcols Hrows)].
  unfold drop_column. cbn [columns rows]. split.
  - intros c Hc Hin. apply filter_elem. split; [auto|].
    apply status_and_time_ne in Hc as (H1 & H2 & H3 & H4).
    by apply negb_true_iff, bool_decide_eq_false_2.
  - intros r' (r1 & -> & Hr1)%list_elem_of_fmap.
    destruct (Hrows r1 Hr1) as (r & Hr & Heq). exists r. split; [done|].
    intros c Hc. rewrite <- (Heq c Hc).
    apply status_and_time_ne in Hc as (H1 & H2 & H3 & H4).
    by apply getcol_delete_ne.
Qed.

Lemma dated_orders_lines (P : Conversions) (df dated : DataFrame) :
  dated_orders P df = Ok dated →
  (∀ c, c ∉ status_and_time → c ∈ columns df → c ∈ columns dated) ∧
  ∀ r', r' ∈ rows dated →
        ∃ r, r ∈ rows df ∧ ∀ c, c ∉ status_and_time → getcol r' c = getcol r c.
Proof.
  destruct (tidy_status_lines df) as [Hcols Hrows].
  unfold dated_orders, ordered_on_datetime.
  case_bool_decide as Hin; [|done]. intros <-%Ok_inj. unfold assign.
  cbn [columns rows]. rewrite (bool_decide_eq_true_2 _ Hin). split; [done|].
  intros r' (r1 & -> & Hr1)%list_elem_of_fmap.
  destruct (Hrows r1 Hr1) as (r & Hr & Heq). exists r. split; [done|].
  intros c Hc. rewrite <- (Heq c Hc).
  apply status_and_time_ne in Hc as (H1 & H2 & H3 & H4).
  by apply getcol_insert_ne.
Qed.

Lemma set_total_zero_cell (x : row) (c : string) :
  c ≠ "Total" → getcol (set_total_zero x) c = getcol x c.
Proof. intros H. unfold set_total_zero. by apply getcol_insert_ne. Qed.

Lemma key_of_ext (keys : list string) (r x : row) :
  (∀ k, k ∈ keys → getcol r k = getcol x k) → key_of keys r = key_of keys x.
Proof.
  intros H. unfold key_of. apply map_ext_in. intros k Hk%list_elem_of_In. by apply H.
Qed.

Lemma key_of_cell (keys : list string) (r x : row) (k : string) :
  key_of keys r = key_of keys x → k ∈ keys → getcol r k = getcol x k.
Proof.
  unfold key_of. intros H Hk. induction keys as [|k' keys IH]; [by apply elem_of_nil in Hk|].
  injection H as H1 H2. apply elem_of_cons in Hk as [->|Hk]; [done|]. by apply IH.
Qed.

Lemma merge_keys_apart (k : string) :
  k ∈ "Menu_Item" :: merge_keys → (k ∉ status_and_time) ∧ (k ≠ "Total").
Proof.
  unfold merge_keys, status_and_time. intros Hk.
  repeat (apply elem_of_cons in Hk as [->|Hk];
          [split; [rewrite !not_elem_of_cons; repeat split; try discriminate;
                   apply not_elem_of_nil|discriminate]|]).
  by apply elem_of_nil in Hk.
Qed.

(** X14: every line that leaves the merge, the lump sums and the filters was
    matched by the API: the menu table has a line with its event id,
    location, event, guest name, guest email and order type, and with its
    menu item. An order of the manual report that the API does not know
    reaches neither the metrics nor the exports, whatever is selected. *)
Theorem filtered_lines_are_matched (P : Conversions) (S : Sidebar)
  (df_manual df_menu out : DataFrame) (r : row) :
  "Total" ∈ columns df_manual → "Total" ∉ columns df_menu →
  "Menu_Item" ∉ columns df_manual → "Menu_Item" ∈ columns df_menu →
  filtered_merge P S df_manual df_menu = Ok out →
  r ∈ rows out →
  ∃ x y,
    x ∈ rows df_manual ∧ y ∈ rows df_menu ∧
    key_of merge_keys x = key_of merge_keys r ∧
    key_of merge_keys y = key_of merge_keys r ∧
    getcol y "Menu_Item" = getcol r "Menu_Item" ∧
    getcol r "Menu_Item" ≠ NA.
Proof.
  intros Htotal Hntotal Hnitem Hitem Hout Hr.
  unfold filtered_merge, merged_orders in Hout.
  destruct (merge_left df_manual df_menu merge_keys ("_manual", "_api"))
    as [merged| |] eqn:Hmerge; [|done..]. cbn [bind] in Hout.
  destruct (lumpsum_deduping merged merge_keys) as [lumped| |] eqn:Hlump; [|done..].
  cbn [bind] in Hout. destruct (empty_frame lumped); [done|]. cbn [bind] in Hout.
  assert (Hmcols : "Total" ∈ columns merged ∧ "Menu_Item" ∈ columns merged).
  { unfold merge_left in Hmerge. destruct (_ && _); [|done].
    apply Ok_inj in Hmerge. subst merged. cbn [columns fst snd]. split.
    - apply elem_of_app. left. apply list_elem_of_fmap. exists "Total". split; [|done].
      by rewrite (bool_decide_eq_false_2 _ Hntotal), andb_false_r.
    - apply elem_of_app. right. apply list_elem_of_fmap. exists "Menu_Item". split.
      + by rewrite (bool_decide_eq_false_2 _ Hnitem).
      + apply filter_elem. split; [done|]. reflexivity. }
  destruct Hmcols as [Hmtotal Hmitem].
  destruct (dated_orders P lumped) as [dated| |] eqn:Hdated;
    [|unfold filtered_orders in Hout; cbv zeta in Hout; rewrite Hdated in Hout;
      discriminate..].
  destruct (filtered_orders_kept P S lumped dated out Hdated Hout) as [Hcols Hrows].
assert (Hkept := Hr). rewrite Hrows in Hkept. apply filter_elem in Hkept as [Hin Hkept].
  destruct (dated_orders_lines P lumped dated Hdated) as [Hdcols Hdrows].
  destruct (Hdrows r Hin) as (r1 & Hr1 & Hcells1).
  destruct (lumpsum_lines merged lumped merge_keys r1 Hmtotal Hlump Hr1)
    as (Hlcols & x1 & Hx1 & Hzero).
  destruct (merge_left_lines df_manual df_menu merged x1 Hmerge Hx1)
    as (x & oy & Hx & Hoy & Hkey & Hmenu).
  assert (Hcells : ∀ k, k ∈ "Menu_Item" :: merge_keys → getcol r k = getcol x1 k).
  { intros k [Hk1 Hk2]%merge_keys_apart. rewrite (Hcells1 k Hk1).
    destruct Hzero as [->| ->]; [done|]. by apply set_total_zero_cell. }
  assert (Hna : getcol r "Menu_Item" ≠ NA).
  { unfold kept_by in Hkept. repeat (apply andb_prop in Hkept as [Hkept ?]).
    match goal with
    | H : passes_choice _ _ "Menu_Item" r = true |- _ => unfold passes_choice in H;
        rewrite bool_decide_eq_true_2 in H
    end.
    - cbn [negb orb] in *.
      match goal with
      | H : notna (getcol r "Menu_Item") && _ = true |- _ =>
          apply andb_prop in H as [H _]; unfold notna in H;
          by apply negb_true_iff, bool_decide_eq_false_1 in H
      end.
    - apply Hdcols; [apply (merge_keys_apart "Menu_Item"); by left|].
      by rewrite Hlcols. }
  assert (Hrkey : key_of merge_keys r = key_of merge_keys x).
  { rewrite <- Hkey. apply key_of_ext. intros k Hk. apply Hcells. by right. }
  rewrite (Hcells "Menu_Item") in Hna |- * by (by left).
  rewrite (Hmenu Hnitem Hitem) in Hna |- *.
  destruct oy as [y|]; [|done]. destruct (Hoy y eq_refl) as [Hy Hyk].
  exists x, y. cbn [from_option] in *. rewrite Hrkey. done.
Qed.

Lemma filtered_lines_are_matched_witness :
  ∃ out r,
    filtered_merge sample_conversions (default_choices 19900 19967)
                   stamped_manual sample_menu = Ok out ∧
    rows out = [r] ∧
    ∃ x y,
      x ∈ rows stamped_manual ∧ y ∈ rows sample_menu ∧
      key_of merge_keys x = key_of merge_keys r ∧
      key_of merge_keys y = key_of merge_keys r ∧
      getcol y "Menu_Item" = getcol r "Menu_Item" ∧
      getcol r "Menu_Item" ≠ NA.
Proof.
  eexists _, _. split; [vm_compute; reflexivity|]. split; [reflexivity|].
  eapply (filtered_lines_are_matched sample_conversions (default_choices 19900 19967)
            stamped_manual sample_menu).
  - apply (bool_decide_eq_true_1 _). vm_compute. reflexivity.
  - apply (bool_decide_eq_false_1 _). vm_compute. reflexivity.
  - apply (bool_decide_eq_false_1 _). vm_compute. reflexivity.
  - apply (bool_decide_eq_true_1 _). vm_compute. reflexivity.
  - vm_compute. reflexivity.
  - cbn [rows]. apply list_elem_of_here.
Defined.
